(** * busapp: the bus-booking web application of [src/app.py]

    A shallow embedding of the Flask application: the two tables of the
    SQLite store, the cookie session, the route guards and every route
    handler, followed by the properties of the specification.

    Conventions of the embedding.
    - A table is the list of its rows in insertion order.  SQLite gives a
      new row of an [INTEGER PRIMARY KEY] table the largest id plus one.
    - The Flask session is a Python dict: a [gmap] from keys to values.
      Flashed messages are kept in a list of their own, since no handler
      reads them back.
    - Text is [string].  The handlers call [str.strip] and [str.lower]
      through the interface [Py.Str]; they are run with its
      implementation for ASCII text, [Py.ascii], and where a property
      is about the normalisation itself it is stated for every
      implementation that keeps the two laws of [Py.Laws].
    - What Python gets from outside the program is an explicit input: the
      clock read by the [created_at] default, and the salt drawn by
      werkzeug's [generate_password_hash]. *)

From Stdlib Require Import ZArith Ascii String List Sorting.Sorted Permutation.
From stdpp Require Import base decidable option list sorting strings gmap.

Local Open Scope Z_scope.
Local Open Scope string_scope.

(** ** Python string methods *)

Module Py.

(** [str.isspace] on one ASCII character: TAB, LF, VT, FF, CR, the four
  separators FS, GS, RS, US, and the space. *)
Definition isspace (a : ascii) : bool :=
let n := N_of_ascii a in
((9 <=? n) && (n <=? 13) || (28 <=? n) && (n <=? 32))%N.

Definition isupper (a : ascii) : bool :=
let n := N_of_ascii a in ((65 <=? n) && (n <=? 90))%N.

Definition lower_char (a : ascii) : ascii :=
if isupper a then ascii_of_N (N_of_ascii a + 32) else a.

(** [s.lower()] on ASCII text. *)
Fixpoint ascii_lower (s : string) : string :=
match s with
| EmptyString => EmptyString
| String a s' => String (lower_char a) (ascii_lower s')
end.

(** [s.lstrip()] *)
Fixpoint lstrip (s : string) : string :=
match s with
| EmptyString => EmptyString
| String a s' => if isspace a then lstrip s' else s
end.

(** [s.rstrip()] *)
Fixpoint rstrip (s : string) : string :=
match s with
| EmptyString => EmptyString
| String a s' =>
    match rstrip s' with
    | EmptyString => if isspace a then EmptyString else String a EmptyString
    | r => String a r
    end
end.

(** [s.strip()] on ASCII text. *)
Definition ascii_strip (s : string) : string := rstrip (lstrip s).

(** The two methods of [str] that the handlers call, [s.strip()] and
    [s.lower()].  Python's own work on Unicode text; the handlers are
    written against the interface, and [ascii] is the implementation for
    ASCII text, with which they are run. *)
Class Str : Type := {
  strip : string → string;
  lower : string → string
}.

#[global] Instance ascii : Str := {| strip := ascii_strip; lower := ascii_lower |}.

(** What the properties of the handlers need of the two methods:
    lowering twice is lowering once, and lowering a stripped string leaves
    nothing to strip.  Both hold of Python's methods on Unicode text:
    lowering yields characters that lowering leaves alone, and it neither
    makes nor removes whitespace. *)
Class Laws (S : Str) : Prop := {
  lower_lower : ∀ s, lower (lower s) = lower s;
  strip_lower_strip : ∀ s, strip (lower (strip s)) = lower (strip s)
}.

(** Truth value of a string: [not s] holds of the empty string only. *)
Definition truthy (s : string) : bool :=
match s with EmptyString => false | String _ _ => true end.

(** [a or b] on strings. *)
Definition or_else (a b : string) : string := if truthy a then a else b.

End Py.

#[global] Arguments Py.strip {_} _ : simpl never.
#[global] Arguments Py.lower {_} _ : simpl never.

(** ** Models *)

(** [class User(db.Model)].  Every column holds what [signup] and
    [profile] write there: no handler stores [None] in one. *)
Module User.
Record t : Type := mk {
  id : Z;
  name : string;
  email : string;
  password : string;
  role : string
}.

Definition set_name (v : string) (u : t) : t :=
  mk (id u) v (email u) (password u) (role u).
Definition set_password (v : string) (u : t) : t :=
  mk (id u) (name u) (email u) v (role u).

#[global] Instance eq_dec : EqDecision t.
Proof. solve_decision. Defined.
End User.

(** [class Booking(db.Model)].  [status] is a nullable column with a
    default: a row may hold NULL there, and SQL comparisons with NULL
    select nothing.  [created_at] is the UTC clock at insertion, in
    microseconds. *)
Module Booking.
Record t : Type := mk {
  id : Z;
  passenger_id : Z;
  trip_date : string;
  origin : string;
  destination : string;
  status : option string;
  created_at : Z
}.

#[global] Instance eq_dec : EqDecision t.
Proof. solve_decision. Defined.
End Booking.

(** The database [bus_safety.db]: each table in insertion order. *)
Record DB : Type := mkDB {
  users : list User.t;
  bookings : list Booking.t
}.

(** ** Queries *)

(** The next [INTEGER PRIMARY KEY] of a table whose ids are [ids]. *)
Definition next_id (ids : list Z) : Z := 1 + foldr Z.max 0 ids.

(** [Query.first()] *)
Definition first {A} (rows : list A) : option A := head rows.

(** [User.query.filter_by(email=e)] *)
Definition filter_by_email (e : string) (rows : list User.t) : list User.t :=
  filter (λ u, User.email u = e) rows.

(** [User.query.filter_by(role=r)] *)
Definition filter_by_role (r : string) (rows : list User.t) : list User.t :=
  filter (λ u, User.role u = r) rows.

(** [a] may come before [b] in a result ordered by [key.desc()]. *)
Definition desc {A} (key : A → Z) (a b : A) : Prop := (key b ≤ key a)%Z.

#[global] Instance desc_dec {A} (key : A → Z) a b : Decision (desc key a b).
Proof. unfold desc. apply _. Defined.

(** [Query.order_by(key.desc())]: the rows by descending key. *)
Definition order_by_desc {A} (key : A → Z) (rows : list A) : list A :=
  merge_sort (desc key) rows.

(** [db.session.add(User(...)); db.session.commit()].  The unique index on
    [email] refuses a second row with the same email ([IntegrityError],
    [None] here); otherwise the row gets the next id. *)
Definition add_user (name email password role : string) (d : DB)
  : option (User.t * DB) :=
  if decide (email ∈ User.email <$> users d) then None
  else
    let user := User.mk (next_id (User.id <$> users d)) name email password role in
    Some (user, mkDB (users d ++ [user]) (bookings d)).

(** [db.session.commit()] after attributes of the loaded [user] were
    assigned: the row with that id is rewritten. *)
Definition update_user (user : User.t) (d : DB) : DB :=
  mkDB ((λ u, if decide (User.id u = User.id user) then user else u) <$> users d)
       (bookings d).

(** [db.session.add(Booking(...)); db.session.commit()]; [now] is what
    [datetime.utcnow] returns for the [created_at] default. *)
Definition add_booking (passenger_id : Z) (trip_date origin destination : string)
    (status : option string) (now : Z) (d : DB) : Booking.t * DB :=
  let booking :=
    Booking.mk (next_id (Booking.id <$> bookings d)) passenger_id
               trip_date origin destination status now in
  (booking, mkDB (users d) (bookings d ++ [booking])).

(** ** Session, request, response *)

(** A value kept in the session cookie. *)
Inductive sval : Type :=
| VInt (z : Z)
| VStr (s : string).

#[global] Instance sval_eq_dec : EqDecision sval.
Proof. solve_decision. Defined.

(** [k in session] *)
Definition contains (k : string) (s : gmap string sval) : bool :=
  bool_decide (is_Some (s !! k)).

(** [User.query.get(k)] for a key taken from the session. *)
Definition query_get (k : sval) (rows : list User.t) : option User.t :=
  first (filter (λ u, VInt (User.id u) = k) rows).

(** [Booking.query.filter_by(passenger_id=k)]; [k] is [None] when it came
    from [session.get] on a missing key, and then no row matches. *)
Definition filter_by_passenger (k : option sval) (rows : list Booking.t)
  : list Booking.t :=
  filter (λ b, Some (VInt (Booking.passenger_id b)) = k) rows.

(** SQL's [column != v]: not true of NULL. *)
Definition sql_ne (column : option string) (v : string) : bool :=
  match column with
  | Some s => bool_decide (s ≠ v)
  | None => false
  end.

(** [.filter(Booking.status != v)] *)
Definition filter_status_ne (v : string) (rows : list Booking.t) : list Booking.t :=
  filter (λ b, sql_ne (Booking.status b) v) rows.

(** [.filter_by(status=v)] *)
Definition filter_by_status (v : string) (rows : list Booking.t) : list Booking.t :=
  filter (λ b, Booking.status b = Some v) rows.

Inductive Method : Type := GET | POST.

#[global] Instance Method_eq_dec : EqDecision Method.
Proof. solve_decision. Defined.

(** What a handler reads from [request]. *)
Record request : Type := mkRequest {
  method : Method;
  form : gmap string string
}.

(** [request.form.get(k, default)] *)
Definition form_get (k default : string) (req : request) : string :=
  match form req !! k with Some v => v | None => default end.

(** What the outside supplies while a request is handled. *)
Record Env : Type := mkEnv {
  utcnow : Z;
  gen_salt : string
}.

(** A value passed to a template. *)
Inductive tval : Type :=
| TNone
| TStr (s : string)
| TInt (z : Z)
| TUser (u : option User.t)
| TUsers (us : list User.t)
| TBookings (bs : list Booking.t).

Definition tval_of (v : option sval) : tval :=
  match v with
  | None => TNone
  | Some (VInt z) => TInt z
  | Some (VStr s) => TStr s
  end.

Inductive response : Type :=
| redirect (location : string)
| render_template (template : string) (context : list (string * tval))
| abort (code : Z).

(** State seen by a handler: the store, the session of the browser that
    sent the request, and the log of [flash(message, category)] calls. *)
Record state : Type := mkState {
  db : DB;
  session : gmap string sval;
  flashed : list (string * string)
}.

Definition flash (message category : string) (st : state) : state :=
  mkState (db st) (session st) (flashed st ++ [(message, category)]).

Definition with_db (d : DB) (st : state) : state :=
  mkState d (session st) (flashed st).

Definition with_session (s : gmap string sval) (st : state) : state :=
  mkState (db st) s (flashed st).

Definition view : Type := Env → request → state → response * state.

(** [url_for(endpoint)] over the routes of the application. *)
Definition url_for (endpoint : string) : string :=
  if decide (endpoint = "home") then "/"
  else if decide (endpoint = "signup") then "/signup"
  else if decide (endpoint = "login") then "/login"
  else if decide (endpoint = "logout") then "/logout"
  else if decide (endpoint = "dashboard") then "/dashboard"
  else if decide (endpoint = "book_trip") then "/book-trip"
  else if decide (endpoint = "view_bookings") then "/view-bookings"
  else if decide (endpoint = "send_alert") then "/send-alert"
  else if decide (endpoint = "profile") then "/profile"
  else if decide (endpoint = "reports") then "/reports"
  else if decide (endpoint = "manage_users") then "/manage-users"
  else if decide (endpoint = "trips_overview") then "/trips-overview"
  else "".

(** ** Helpers: the route guards *)

(** [login_required(fn)] *)
Definition login_required (fn : view) : view := λ env req st,
  if negb (contains "user_id" (session st)) then
    (redirect (url_for "login"), flash "Please log in first." "error" st)
  else fn env req st.

(** [require_role(role)(fn)] *)
Definition require_role (role : string) (fn : view) : view := λ env req st,
  if negb (contains "user_id" (session st)) then
    (redirect (url_for "login"), flash "Please log in first." "error" st)
  else if bool_decide (session st !! "role" ≠ Some (VStr role)) then
    (redirect (url_for "dashboard"),
     flash "You are not authorized to view that page." "error" st)
  else fn env req st.

(** ** Routes *)

(** What the application imports from [werkzeug.security]:
    [generate_password_hash], as a function of the salt it draws and of
    the password, and [check_password_hash(pwhash, password)]. *)
Class Werkzeug : Type := {
  generate_password_hash : string → string → string;
  check_password_hash : string → string → bool
}.

Section Routes.

Context {S : Py.Str} {W : Werkzeug}.

(** The three assignments that open a session for [user]. *)
Definition open_session (user : User.t) (s : gmap string sval) : gmap string sval :=
  <["name" := VStr (User.name user)]>
    (<["role" := VStr (User.role user)]>
       (<["user_id" := VInt (User.id user)]> s)).

Definition home : view := λ env req st,
  if contains "user_id" (session st) then (redirect (url_for "dashboard"), st)
  else (render_template "index.html" [], st).

Definition signup : view := λ env req st,
  match method req with
  | POST =>
      let name := Py.or_else (Py.strip (form_get "name" "" req)) "User" in
      let email := Py.lower (Py.strip (form_get "email" "" req)) in
      let password := form_get "password" "" req in
      let role := form_get "role" "passenger" req in
      if negb (Py.truthy email) || negb (Py.truthy password)
         || negb (bool_decide (role ∈ ["passenger"; "driver"; "admin"])) then
        (redirect (url_for "signup"),
         flash "Please fill all fields correctly." "error" st)
      else if first (filter_by_email email (users (db st))) is Some _ then
        (redirect (url_for "login"),
         flash "Email already registered. Please log in." "error" st)
      else
        let hashed := generate_password_hash (gen_salt env) password in
        match add_user name email hashed role (db st) with
        | None => (abort 500, st)
        | Some (user, d) =>
            (redirect (url_for "dashboard"),
             flash "Signup successful. Welcome!" "success"
               (with_session (open_session user (session st)) (with_db d st)))
        end
  | GET => (render_template "signup.html" [], st)
  end.

Definition login : view := λ env req st,
  match method req with
  | POST =>
      let email := Py.lower (Py.strip (form_get "email" "" req)) in
      let password := form_get "password" "" req in
      match first (filter_by_email email (users (db st))) with
      | Some user =>
          if check_password_hash (User.password user) password then
            (redirect (url_for "dashboard"),
             flash "Login successful!" "success"
               (with_session (open_session user (session st)) st))
          else
            (redirect (url_for "login"),
             flash "Invalid email or password." "error" st)
      | None =>
          (redirect (url_for "login"),
           flash "Invalid email or password." "error" st)
      end
  | GET => (render_template "login.html" [], st)
  end.

Definition logout : view := λ env req st,
  (redirect (url_for "home"),
   flash "You have been logged out." "success" (with_session ∅ st)).

Definition dashboard : view := login_required (λ env req st,
  let role := session st !! "role" in
  let name := tval_of (Some (default (VStr "User") (session st !! "name"))) in
  if bool_decide (role = Some (VStr "admin")) then
    let total_users := Z.of_nat (length (users (db st))) in
    let total_passengers :=
      Z.of_nat (length (filter_by_role "passenger" (users (db st)))) in
    let total_drivers :=
      Z.of_nat (length (filter_by_role "driver" (users (db st)))) in
    let total_bookings := Z.of_nat (length (bookings (db st))) in
    (render_template "admin_dashboard.html"
       [("name", name); ("role", tval_of role); ("active", TStr "dashboard");
        ("total_users", TInt total_users);
        ("total_passengers", TInt total_passengers);
        ("total_drivers", TInt total_drivers);
        ("total_bookings", TInt total_bookings)], st)
  else if bool_decide (role = Some (VStr "driver")) then
    let assigned_trips := [] in
    (render_template "driver_dashboard.html"
       [("name", name); ("role", tval_of role); ("active", TStr "dashboard");
        ("assigned_trips", TBookings assigned_trips); ("current", TNone)], st)
  else
    let uid := session st !! "user_id" in
    let upcoming :=
      order_by_desc Booking.created_at
        (filter_status_ne "Completed"
           (filter_by_passenger uid (bookings (db st)))) in
    let history :=
      order_by_desc Booking.created_at
        (filter_by_status "Completed"
           (filter_by_passenger uid (bookings (db st)))) in
    (render_template "passenger_dashboard.html"
       [("name", name); ("role", tval_of role); ("active", TStr "dashboard");
        ("trips", TBookings upcoming); ("history", TBookings history)], st)).

(** The body of [book_trip], under its guard.  [signup] and [login] are
    the only writers of [session["user_id"]], and they put an integer
    there; a cookie with anything else under that key cannot give a
    [passenger_id], and the request ends in a 500 with nothing written. *)
Definition book_trip_body : view := λ env req st,
  match method req with
  | POST =>
      let trip_date := Py.strip (form_get "trip_date" "" req) in
      let origin := Py.strip (form_get "origin" "" req) in
      let destination := Py.strip (form_get "destination" "" req) in
      if negb (Py.truthy trip_date) || negb (Py.truthy origin)
         || negb (Py.truthy destination) then
        (redirect (url_for "book_trip"),
         flash "Please complete all trip fields." "error" st)
      else
        match session st !! "user_id" with
        | Some (VInt uid) =>
            let '(booking, d) :=
              add_booking uid trip_date origin destination (Some "Booked")
                          (utcnow env) (db st) in
            (redirect (url_for "view_bookings"),
             flash "Trip booked successfully!" "success" (with_db d st))
        | _ => (abort 500, st)
        end
  | GET => (render_template "book_trip.html" [("active", TStr "book_trip")], st)
  end.

Definition book_trip : view := require_role "passenger" book_trip_body.

(** The body of [view_bookings], under its guard. *)
Definition view_bookings_body : view := λ env req st,
  let bookings :=
    order_by_desc Booking.created_at
      (filter_by_passenger (session st !! "user_id") (bookings (db st))) in
  (render_template "view_bookings.html"
     [("bookings", TBookings bookings); ("active", TStr "view_bookings")], st).

Definition view_bookings : view := require_role "passenger" view_bookings_body.

Definition send_alert : view := login_required (λ env req st,
  match method req with
  | POST =>
      (redirect (url_for "dashboard"),
       flash "Emergency alert sent (demo)." "success" st)
  | GET => (render_template "sendalert.html" [("active", TStr "send_alert")], st)
  end).

(** The body of [profile], under its guard.  When the session names a
    user that has no row, [user] is [None] and assigning an attribute of
    it raises: the request ends in a 500 with nothing written. *)
Definition profile_body : view := λ env req st,
  match session st !! "user_id" with
  | None => (abort 500, st)
  | Some k =>
      let user := query_get k (users (db st)) in
      match method req with
      | POST =>
          let name := Py.strip (form_get "name" "" req) in
          let pwd := Py.strip (form_get "password" "" req) in
          match user with
          | None =>
              if Py.truthy name || Py.truthy pwd then (abort 500, st)
              else (redirect (url_for "profile"),
                    flash "Profile updated!" "success" st)
          | Some user =>
              let user1 := if Py.truthy name then User.set_name name user else user in
              let session1 :=
                if Py.truthy name then <["name" := VStr name]> (session st)
                else session st in
              let user2 :=
                if Py.truthy pwd then
                  User.set_password (generate_password_hash (gen_salt env) pwd) user1
                else user1 in
              (redirect (url_for "profile"),
               flash "Profile updated!" "success"
                 (with_session session1 (with_db (update_user user2 (db st)) st)))
          end
      | GET =>
          (render_template "profile.html"
             [("user", TUser user); ("active", TStr "profile")], st)
      end
  end.

Definition profile : view := login_required profile_body.

Definition reports : view := require_role "admin" (λ env req st,
  (render_template "admin_dashboard.html"
     [("active", TStr "reports"); ("name", tval_of (session st !! "name"));
      ("role", TStr "admin")], st)).

(** The body of [manage_users], under its guard. *)
Definition manage_users_body : view := λ env req st,
  let users := order_by_desc User.id (users (db st)) in
  (render_template "admin_dashboard.html"
     [("active", TStr "manage_users"); ("name", tval_of (session st !! "name"));
      ("role", TStr "admin"); ("users", TUsers users)], st).

Definition manage_users : view := require_role "admin" manage_users_body.

Definition trips_overview : view := require_role "admin" (λ env req st,
  let bookings := order_by_desc Booking.created_at (bookings (db st)) in
  (render_template "admin_dashboard.html"
     [("active", TStr "trips_overview"); ("name", tval_of (session st !! "name"));
      ("role", TStr "admin"); ("bookings", TBookings bookings)], st)).

(** [@app.errorhandler(404)] *)
Definition not_found : view := λ env req st, (redirect (url_for "home"), st).

(** The URL map built by the [@app.route] decorators: rule, methods
    accepted, view. *)
Definition url_map : list (string * (list Method * view)) :=
  [ ("/", ([GET], home));
    ("/signup", ([GET; POST], signup));
    ("/login", ([GET; POST], login));
    ("/logout", ([GET], logout));
    ("/dashboard", ([GET], dashboard));
    ("/book-trip", ([GET; POST], book_trip));
    ("/view-bookings", ([GET], view_bookings));
    ("/send-alert", ([GET; POST], send_alert));
    ("/profile", ([GET; POST], profile));
    ("/reports", ([GET], reports));
    ("/manage-users", ([GET], manage_users));
    ("/trips-overview", ([GET], trips_overview)) ].

Fixpoint match_rule (path : string) (rules : list (string * (list Method * view)))
  : option (list Method * view) :=
  match rules with
  | [] => None
  | (rule, target) :: rules' =>
      if decide (rule = path) then Some target else match_rule path rules'
  end.

(** Flask's dispatch of one request: 404 goes to the error handler, a
    method the rule does not accept is a 405. *)
Definition dispatch_request (path : string) : view := λ env req st,
  match match_rule path url_map with
  | None => not_found env req st
  | Some (methods, fn) =>
      if bool_decide (method req ∈ methods) then fn env req st
      else (abort 405, st)
  end.

(** One HTTP exchange with the application.  Flask keeps the session in
    a signed cookie, so each request brings the session of its browser
    along, and requests of different browsers meet in the store only. *)
Record exchange : Type := mkExchange {
  x_path : string;
  x_env : Env;
  x_request : request;
  x_cookie : gmap string sval
}.

Definition serve (d : DB) (x : exchange) : response * state :=
  dispatch_request (x_path x) (x_env x) (x_request x) (mkState d (x_cookie x) []).

(** The store after a sequence of exchanges, of any browsers. *)
Definition serve_all (d : DB) (xs : list exchange) : DB :=
  foldl (λ d x, db (serve d x).2) d xs.

End Routes.

(** ** A salted hash to run the handlers with *)

(** [suf] ends [s]. *)
Fixpoint ends_with (suf s : string) : bool :=
  String.eqb s suf ||
  match s with
  | EmptyString => false
  | String _ s' => ends_with suf s'
  end.

(** A stand-in for werkzeug's pair: the hash is the salt, a separator and
    the password, and the check looks for the password after a separator. *)
Definition toy_generate (salt password : string) : string :=
  salt ++ "$" ++ password.

Definition toy_check (pwhash password : string) : bool :=
  ends_with ("$" ++ password) pwhash.

Definition toy : Werkzeug := Build_Werkzeug toy_generate toy_check.

(** The one fact about werkzeug that the application relies on: a hash
    verifies the password it was made from. *)
Definition hash_verifies (W : Werkzeug) : Prop :=
  ∀ salt password,
    check_password_hash (generate_password_hash salt password) password = true.

(** ** Well-formed stores *)

(** What the schema and the handlers maintain: ids grow along the user
    table, emails are unique, not empty and stored stripped and in lower
    case, and every booking has a status. *)
Definition id_lt (u v : User.t) : Prop := (User.id u < User.id v)%Z.

Definition db_ok `{S : Py.Str} (d : DB) : Prop :=
  StronglySorted id_lt (users d)
  ∧ NoDup (User.email <$> users d)
  ∧ Forall (λ e, Py.lower (Py.strip e) = e ∧ e ≠ "") (User.email <$> users d)
  ∧ Forall (λ b, is_Some (Booking.status b)) (bookings d).

(** The columns of a user that no handler assigns after creation. *)
Definition identity (u : User.t) : Z * string * string :=
  (User.id u, User.email u, User.role u).

(** A view that keeps the store well-formed and only ever appends to the
    identities of the user table. *)
Definition keeps_store `{S : Py.Str} (fn : view) : Prop :=
  ∀ env req st,
    db_ok (db st) →
    db_ok (db (fn env req st).2)
    ∧ (identity <$> users (db st)) `prefix_of`
        (identity <$> users (db (fn env req st).2)).

(** The bookings of the passenger [uid]. *)
Definition owned_by (uid : Z) (rows : list Booking.t) : list Booking.t :=
  filter (λ b, Booking.passenger_id b = uid) rows.

(** Newest first: no row is older than a row that comes after it. *)
Definition newest_first (rows : list Booking.t) : Prop :=
  StronglySorted (desc Booking.created_at) rows.

(** A session of the user [uid] in the role [role]. *)
Definition logged_in (uid : Z) (role : string) (s : gmap string sval) : Prop :=
  s !! "user_id" = Some (VInt uid) ∧ s !! "role" = Some (VStr role).

(** The row that a successful [signup] adds for a request. *)
Definition new_user `{S : Py.Str} `{W : Werkzeug} (env : Env) (req : request) (d : DB) : User.t :=
  User.mk (next_id (User.id <$> users d))
          (Py.or_else (Py.strip (form_get "name" "" req)) "User")
          (Py.lower (Py.strip (form_get "email" "" req)))
          (generate_password_hash (gen_salt env) (form_get "password" "" req))
          (form_get "role" "passenger" req).

(** Equal up to the case of letters. *)
Definition caseless `{S : Py.Str} (s t : string) : Prop := Py.lower s = Py.lower t.

(** Equal up to the case of letters and to surrounding whitespace. *)
Definition same_address `{S : Py.Str} (e e' : string) : Prop :=
  caseless (Py.strip e) (Py.strip e').

(** A session that holds the id, role and name of [u]. *)
Definition session_of (u : User.t) (s : gmap string sval) : Prop :=
  s !! "user_id" = Some (VInt (User.id u))
  ∧ s !! "role" = Some (VStr (User.role u))
  ∧ s !! "name" = Some (VStr (User.name u)).

(** What one request, to [path] with the state [st], can do to the
    store: nothing; append the row of a validated signup; rewrite the name
    and password of the row of the session's user; append one booking of the
    session's passenger. *)
Inductive effect (path : string) (req : request) (st : state) : DB → Prop :=
| effect_none : effect path req st (db st)
| effect_signup (u : User.t) :
    path = "/signup" → method req = POST →
    User.id u = next_id (User.id <$> users (db st)) →
    User.email u = Py.lower (Py.strip (form_get "email" "" req)) →
    User.email u ≠ "" →
    User.email u ∉ User.email <$> users (db st) →
    User.role u ∈ ["passenger"; "driver"; "admin"] →
    effect path req st (mkDB (users (db st) ++ [u]) (bookings (db st)))
| effect_profile (u u' : User.t) :
    path = "/profile" → method req = POST →
    session st !! "user_id" = Some (VInt (User.id u)) →
    u ∈ users (db st) → identity u' = identity u →
    effect path req st (update_user u' (db st))
| effect_book (b : Booking.t) uid :
    path = "/book-trip" → method req = POST →
    logged_in uid "passenger" (session st) →
    Booking.id b = next_id (Booking.id <$> bookings (db st)) →
    Booking.passenger_id b = uid →
    Booking.status b = Some "Booked" →
    Booking.trip_date b ≠ "" → Booking.origin b ≠ "" → Booking.destination b ≠ "" →
    effect path req st (mkDB (users (db st)) (bookings (db st) ++ [b])).

(** The rules of the URL map. *)
Definition routes : list string :=
  ["/"; "/signup"; "/login"; "/logout"; "/dashboard"; "/book-trip";
   "/view-bookings"; "/send-alert"; "/profile"; "/reports"; "/manage-users";
   "/trips-overview"].

(** The rules whose view is wrapped in [login_required] or
    [require_role]. *)
Definition guarded : list string :=
  ["/dashboard"; "/book-trip"; "/view-bookings"; "/send-alert"; "/profile";
   "/reports"; "/manage-users"; "/trips-overview"].

(** A session as the application writes it for the store [d]: none, or
    the id of a stored user. *)
Definition session_known (d : DB) (s : gmap string sval) : Prop :=
  s !! "user_id" = None
  ∨ ∃ u, u ∈ users d ∧ s !! "user_id" = Some (VInt (User.id u)).

(** What the handlers keep of the Booking table, besides [db_ok]: ids
    grow along the table and every row is [Booked]. *)
Definition bookings_ok (d : DB) : Prop :=
  StronglySorted Z.lt (Booking.id <$> bookings d)
  ∧ Forall (λ b, Booking.status b = Some "Booked") (bookings d).

(** Every stored user has one of the three roles. *)
Definition roles_ok (d : DB) : Prop :=
  Forall (λ u, User.role u ∈ ["passenger"; "driver"; "admin"]) (users d).

#[global] Instance DB_eq_dec : EqDecision DB.
Proof. solve_decision. Defined.

#[global] Instance bookings_ok_dec d : Decision (bookings_ok d).
Proof. unfold bookings_ok. apply _. Defined.

#[global] Instance roles_ok_dec d : Decision (roles_ok d).
Proof. unfold roles_ok. apply _. Defined.

#[global] Instance id_lt_dec u v : Decision (id_lt u v).
Proof. unfold id_lt. apply _. Defined.

#[global] Instance db_ok_dec `{S : Py.Str} d : Decision (db_ok d).
Proof. unfold db_ok. apply _. Defined.

(** ** A small store and some requests *)

Module Demo.

Definition post (fields : list (string * string)) : request :=
  mkRequest POST (list_to_map fields).

Definition get : request := mkRequest GET ∅.

Definition env1 : Env := mkEnv 1000 "s1".
Definition env2 : Env := mkEnv 2000 "s2".

Definition ann : User.t := User.mk 1 "Ann" "ann@x.com" "s1$pw1" "passenger".
Definition bob : User.t := User.mk 2 "Bob" "bob@x.com" "s1$pw2" "passenger".
Definition root : User.t := User.mk 3 "Root" "root@x.com" "s1$pw3" "admin".

Definition trip (id passenger_id : Z) (status : string) (created_at : Z)
  : Booking.t :=
  Booking.mk id passenger_id "2024-01-01" "X" "Y" (Some status) created_at.

Definition store : DB :=
  mkDB [ann; bob; root]
       [trip 1 1 "Booked" 10; trip 2 2 "Booked" 20;
        trip 3 1 "Completed" 30; trip 4 1 "Booked" 40].

Definition empty : state := mkState (mkDB [] []) ∅ [].

(** A browser logged in as [u], and one that is not logged in. *)
Definition as_user (u : User.t) : state := mkState store (open_session u ∅) [].
Definition anonymous : state := mkState store ∅ [].

Definition signup_ann : request :=
  post [("name", "Ann"); ("email", " Ann@X.com "); ("password", "pw1");
        ("role", "passenger")].

Definition signup_no_password : request :=
  post [("name", "Ann"); ("email", "ann@x.com"); ("password", "");
        ("role", "passenger")].

Definition signup_carl : request :=
  post [("name", "Carl"); ("email", "carl@x.com"); ("password", "pw4");
        ("role", "driver")].

Definition login_ann (password : string) : request :=
  post [("email", "ANN@x.com"); ("password", password)].

Definition book (trip_date : string) : request :=
  post [("trip_date", trip_date); ("origin", " X "); ("destination", "Y")].

Definition change_password (password : string) : request :=
  post [("name", ""); ("password", password)].

Definition rename (name : string) : request :=
  post [("name", name); ("password", "")].


Definition signup_bare : request :=
  post [("email", "dan@x.com"); ("password", "pw5")].

(** A user that has no row in [store], and a store of [Booked] rows. *)
Definition ghost : User.t := User.mk 9 "Ghost" "ghost@x.com" "s1$pw0" "passenger".

Definition booked : DB :=
  mkDB [ann; bob; root] [trip 1 1 "Booked" 10; trip 2 2 "Booked" 20].

(** Ann signs up and books twice, Carl signs up, Ann renames herself. *)
Definition run : list exchange :=
  [mkExchange "/signup" env1 signup_ann ∅;
   mkExchange "/book-trip" env1 (book "2024-03-03") (open_session ann ∅);
   mkExchange "/book-trip" env2 (book "2024-04-04") (open_session ann ∅);
   mkExchange "/signup" env2 signup_carl ∅;
   mkExchange "/profile" env2 (rename "Anna") (open_session ann ∅)].

End Demo.

(** * Properties *)

(** ** Strings *)

Example strip_ex : Py.ascii_strip "  Ab c  " = "Ab c".
Proof. reflexivity. Qed.

Example lower_ex : Py.ascii_lower " A@X.Com" = " a@x.com".
Proof. reflexivity. Qed.

Lemma truthy_false s : Py.truthy s = false ↔ s = "".
Proof. destruct s; simpl; split; congruence. Qed.

Lemma truthy_true s : Py.truthy s = true ↔ s ≠ "".
Proof. destruct s; simpl; split; congruence. Qed.

Lemma lower_char_idemp a : Py.lower_char (Py.lower_char a) = Py.lower_char a.
Proof. destruct a as [[] [] [] [] [] [] [] []]; reflexivity. Qed.

Lemma isupper_lower_char a : Py.isupper (Py.lower_char a) = false.
Proof. destruct a as [[] [] [] [] [] [] [] []]; reflexivity. Qed.

Lemma isspace_lower_char a : Py.isspace (Py.lower_char a) = Py.isspace a.
Proof. destruct a as [[] [] [] [] [] [] [] []]; reflexivity. Qed.

Lemma lower_idemp s : Py.ascii_lower (Py.ascii_lower s) = Py.ascii_lower s.
Proof. induction s as [|a s IH]; simpl; [done|]. by rewrite lower_char_idemp, IH. Qed.

Lemma lower_lstrip s : Py.lstrip (Py.ascii_lower s) = Py.ascii_lower (Py.lstrip s).
Proof.
  induction s as [|a s IH]; simpl; [done|].
  rewrite isspace_lower_char. by destruct (Py.isspace a).
Qed.

Lemma lower_rstrip s : Py.rstrip (Py.ascii_lower s) = Py.ascii_lower (Py.rstrip s).
Proof.
  induction s as [|a s IH]; simpl; [done|].
  rewrite IH, isspace_lower_char.
  destruct (Py.rstrip s); simpl; [by destruct (Py.isspace a)|done].
Qed.

Lemma lower_strip s : Py.ascii_strip (Py.ascii_lower s) = Py.ascii_lower (Py.ascii_strip s).
Proof. unfold Py.ascii_strip. by rewrite lower_lstrip, lower_rstrip. Qed.

Lemma rstrip_idemp s : Py.rstrip (Py.rstrip s) = Py.rstrip s.
Proof.
  induction s as [|a s IH]; simpl; [done|].
  destruct (Py.rstrip s) as [|b r] eqn:E.
  - destruct (Py.isspace a) eqn:Ea; simpl; [done|]. by rewrite Ea.
  - change (Py.rstrip (String a (String b r))) with
      (match Py.rstrip (String b r) with
       | EmptyString => if Py.isspace a then EmptyString else String a EmptyString
       | r' => String a r'
       end).
    by rewrite IH.
Qed.

(** Nothing to strip on the left of a string that starts with a letter. *)
Lemma lstrip_rstrip_lstrip s :
  Py.lstrip (Py.rstrip (Py.lstrip s)) = Py.rstrip (Py.lstrip s).
Proof.
  induction s as [|a s IH]; simpl; [done|].
  destruct (Py.isspace a) eqn:Ea; [done|].
  simpl. destruct (Py.rstrip s); rewrite ?Ea; simpl; by rewrite Ea.
Qed.

Lemma strip_idemp s : Py.ascii_strip (Py.ascii_strip s) = Py.ascii_strip s.
Proof. unfold Py.ascii_strip. by rewrite lstrip_rstrip_lstrip, rstrip_idemp. Qed.

#[global] Instance ascii_laws : Py.Laws Py.ascii.
Proof.
  split; intros s; unfold Py.strip, Py.lower; simpl.
  - apply lower_idemp.
  - by rewrite lower_strip, strip_idemp.
Qed.

(** The address a handler works with is already in normal form. *)
Lemma normal_form_fixed `{S : Py.Str} `{!Py.Laws S} e :
  Py.lower (Py.strip (Py.lower (Py.strip e))) = Py.lower (Py.strip e).
Proof. by rewrite Py.strip_lower_strip, Py.lower_lower. Qed.

Lemma lower_no_upper s a :
  a ∈ list_ascii_of_string (Py.ascii_lower s) → Py.isupper a = false.
Proof.
  induction s as [|b s IH]; simpl; [by intros ?%elem_of_nil|].
  intros [->|?]%elem_of_cons; [apply isupper_lower_char|auto].
Qed.

Lemma ends_with_app pre suf : ends_with suf (pre ++ suf) = true.
Proof.
  induction pre as [|a pre IH]; simpl.
  - destruct suf; simpl; [done|]. by rewrite Ascii.eqb_refl, String.eqb_refl.
  - rewrite IH. apply orb_true_r.
Qed.

Lemma toy_check_generate salt p : toy_check (toy_generate salt p) p = true.
Proof. apply ends_with_app. Qed.

(** ** Queries on a well-formed store *)

Lemma next_id_above ids i : i ∈ ids → (i < next_id ids)%Z.
Proof.
  unfold next_id. induction ids as [|j ids IH]; simpl.
  - by intros ?%elem_of_nil.
  - intros [->|Hi]%elem_of_cons; [lia|]. specialize (IH Hi). lia.
Qed.

Lemma ids_inj us u v :
  StronglySorted id_lt us → u ∈ us → v ∈ us → User.id u = User.id v → u = v.
Proof.
  induction 1 as [|w us Hs IH Hw]; [by intros ?%elem_of_nil|].
  rewrite Forall_forall in Hw. unfold id_lt in Hw.
  intros [->|Hu]%elem_of_cons [->|Hv]%elem_of_cons E; auto.
  - specialize (Hw _ Hv). lia.
  - specialize (Hw _ Hu). lia.
Qed.

Lemma first_filter_by_email_elem e us u :
  first (filter_by_email e us) = Some u → u ∈ us ∧ User.email u = e.
Proof.
  unfold first, filter_by_email. intros H%head_Some_elem_of.
  by apply list_elem_of_filter in H as [? ?].
Qed.

Lemma first_filter_by_email_None e us :
  first (filter_by_email e us) = None ↔ e ∉ User.email <$> us.
Proof.
  unfold first, filter_by_email. rewrite head_None. split.
  - intros E (u & -> & Hu)%list_elem_of_fmap.
    assert (u ∈ filter (λ u0, User.email u0 = User.email u) us) as H
      by by apply list_elem_of_filter.
    rewrite E in H. by apply elem_of_nil in H.
  - intros Hn. destruct (filter _ us) as [|u l] eqn:E; [done|].
    assert (u ∈ filter (λ u0, User.email u0 = e) us) as H by (rewrite E; left).
    apply list_elem_of_filter in H as [<- Hu]. destruct Hn.
    apply list_elem_of_fmap. eauto.
Qed.

(** With unique emails, [filter_by(email=...).first()] is the one row that
    has the email. *)
Lemma first_filter_by_email_Some us u :
  NoDup (User.email <$> us) → u ∈ us →
  first (filter_by_email (User.email u) us) = Some u.
Proof.
  intros Hnd Hu.
  destruct (first (filter_by_email (User.email u) us)) as [v|] eqn:E.
  - apply first_filter_by_email_elem in E as [Hv Ee]. f_equal.
    apply list_elem_of_lookup in Hv as [i Hi]. apply list_elem_of_lookup in Hu as [j Hj].
    assert (i = j) as ->; [|congruence].
    eapply NoDup_lookup; [exact Hnd| |]; rewrite list_lookup_fmap.
    + by rewrite Hi.
    + rewrite Hj. simpl. by rewrite Ee.
  - apply first_filter_by_email_None in E. destruct E.
    apply list_elem_of_fmap. eauto.
Qed.

Lemma query_get_elem k us u :
  query_get k us = Some u → u ∈ us ∧ k = VInt (User.id u).
Proof.
  unfold query_get, first. intros H%head_Some_elem_of.
  by apply list_elem_of_filter in H as [? ?].
Qed.

Lemma query_get_Some us u :
  StronglySorted id_lt us → u ∈ us → query_get (VInt (User.id u)) us = Some u.
Proof.
  intros Hs Hu. unfold query_get, first.
  destruct (filter _ us) as [|v l] eqn:E; simpl.
  - assert (u ∈ filter (λ u0, VInt (User.id u0) = VInt (User.id u)) us) as H
      by by apply list_elem_of_filter.
    rewrite E in H. by apply elem_of_nil in H.
  - assert (v ∈ filter (λ u0, VInt (User.id u0) = VInt (User.id u)) us) as H
      by (rewrite E; left).
    apply list_elem_of_filter in H as [Hid Hv]. f_equal.
    eapply ids_inj; eauto. congruence.
Qed.

(** ** The store stays well-formed *)


Lemma add_user_Some name email password role d :
  email ∉ User.email <$> users d →
  add_user name email password role d =
    Some (User.mk (next_id (User.id <$> users d)) name email password role,
          mkDB (users d ++ [User.mk (next_id (User.id <$> users d))
                                    name email password role])
               (bookings d)).
Proof. intros H. unfold add_user. by rewrite decide_False. Qed.

Lemma add_user_ok `{S : Py.Str} name email password role d user d' :
  db_ok d → Py.lower (Py.strip email) = email → email ≠ "" →
  add_user name email password role d = Some (user, d') → db_ok d'.
Proof.
  intros (Hs & Hnd & Hnf & Hb) Hnorm Hne. unfold add_user. case_decide as Hin; [done|].
  intros [= <- <-]. repeat split; simpl; [| | |done].
  - apply StronglySorted_app_2; [|done|repeat constructor].
    intros u v Hu ->%list_elem_of_singleton. unfold id_lt. simpl.
    apply next_id_above, list_elem_of_fmap. eauto.
  - rewrite fmap_app. apply NoDup_app. repeat split; [done| |].
    + intros e He ->%list_elem_of_singleton. done.
    + apply NoDup_singleton.
  - rewrite fmap_app. apply Forall_app. split; [done|]. by repeat constructor.
Qed.

Lemma update_user_identity user u d :
  StronglySorted id_lt (users d) → u ∈ users d → identity user = identity u →
  identity <$> users (update_user user d) = identity <$> users d.
Proof.
  intros Hs Hu [=Eid Eem Ero]. unfold update_user. simpl.
  rewrite <-list_fmap_compose. apply list_fmap_ext.
  intros i r Hr%list_elem_of_lookup_2. simpl.
  case_decide as E; [|done].
  assert (r = u) as -> by (eapply ids_inj; eauto; congruence).
  unfold identity. congruence.
Qed.

Lemma identity_fmap_id (us us' : list User.t) :
  identity <$> us = identity <$> us' → User.id <$> us = User.id <$> us'.
Proof.
  intros E. apply (f_equal (fmap (λ p : Z * string * string, p.1.1))) in E.
  by rewrite <-!list_fmap_compose in E.
Qed.

Lemma identity_fmap_email (us us' : list User.t) :
  identity <$> us = identity <$> us' → User.email <$> us = User.email <$> us'.
Proof.
  intros E. apply (f_equal (fmap (λ p : Z * string * string, p.1.2))) in E.
  by rewrite <-!list_fmap_compose in E.
Qed.

Lemma id_lt_fmap us :
  StronglySorted id_lt us ↔ StronglySorted Z.lt (User.id <$> us).
Proof.
  induction us as [|u us IH]; csimpl; [split; constructor|].
  rewrite !StronglySorted_cons, IH, Forall_fmap. done.
Qed.

Lemma update_user_ok `{S : Py.Str} user u d :
  db_ok d → u ∈ users d → identity user = identity u → db_ok (update_user user d).
Proof.
  intros (Hs & Hnd & Hnf & Hb) Hu E.
  pose proof (update_user_identity user u d Hs Hu E) as Hid.
  repeat split; [| | |done].
  - apply id_lt_fmap. rewrite (identity_fmap_id _ _ Hid). by apply id_lt_fmap.
  - by rewrite (identity_fmap_email _ _ Hid).
  - by rewrite (identity_fmap_email _ _ Hid).
Qed.

Lemma add_booking_ok `{S : Py.Str} uid t o dst s now d :
  db_ok d → db_ok (add_booking uid t o dst (Some s) now d).2.
Proof.
  intros (Hs & Hnd & Hnf & Hb). repeat split; simpl; [done..|].
  apply Forall_app. split; [done|]. repeat constructor. by eexists.
Qed.

(** ** Every view keeps the store well-formed *)

(** Project the state a view returns, leaving the queries folded. *)
Ltac view_simpl :=
  cbn [fst snd db session flashed flash with_db with_session] in *.

Section Store.

Context {S : Py.Str} {HS : Py.Laws S} {W : Werkzeug}.

Lemma keeps_store_same (fn : view) :
  (∀ env req st, db (fn env req st).2 = db st) → keeps_store fn.
Proof. intros H env req st Hok. by rewrite H. Qed.

Lemma keeps_login_required fn : keeps_store fn → keeps_store (login_required fn).
Proof.
  intros H env req st Hok. unfold login_required.
  destruct (negb _); [done|]. by apply H.
Qed.

Lemma keeps_require_role role fn : keeps_store fn → keeps_store (require_role role fn).
Proof.
  intros H env req st Hok. unfold require_role.
  destruct (negb _); [done|]. case_bool_decide; [done|]. by apply H.
Qed.

Lemma keeps_signup : keeps_store signup.
Proof.
  intros env req st Hok. unfold signup.
  destruct (method req); [done|].
  destruct (_ || _) eqn:Ev; [done|].
  apply orb_false_iff in Ev as [[Ev _]%orb_false_iff _].
  apply negb_false_iff, truthy_true in Ev.
  destruct (first _); [done|].
  destruct (add_user _ _ _ _ _) as [[user d]|] eqn:E; [|done]. simpl. split.
  - eapply add_user_ok; eauto using normal_form_fixed.
  - unfold add_user in E. case_decide; [done|]. injection E as <- <-. simpl.
    rewrite fmap_app. by apply prefix_app_r.
Qed.

Lemma keeps_login : keeps_store login.
Proof.
  apply keeps_store_same. intros env req st. unfold login.
  destruct (method req); [done|].
  destruct (first _); [|done]. by destruct (check_password_hash _ _).
Qed.

Lemma profile_user_identity name pwd salt (user : User.t) :
  identity
    (if Py.truthy pwd then
       User.set_password (generate_password_hash salt pwd)
         (if Py.truthy name then User.set_name name user else user)
     else if Py.truthy name then User.set_name name user else user)
  = identity user.
Proof. by destruct (Py.truthy pwd), (Py.truthy name). Qed.

Lemma keeps_profile_body : keeps_store profile_body.
Proof.
  intros env req st Hok. unfold profile_body.
  destruct (session st !! "user_id") as [k|]; [|done].
  destruct (method req); [done|].
  destruct (query_get k _) as [user|] eqn:E.
  - apply query_get_elem in E as [Hu _]. view_simpl. split.
    + eapply update_user_ok; eauto using profile_user_identity.
    + erewrite update_user_identity; eauto using profile_user_identity.
      apply Hok.
  - by destruct (_ || _).
Qed.

Lemma keeps_book_trip : keeps_store book_trip.
Proof.
  apply keeps_require_role. intros env req st Hok. unfold book_trip_body.
  destruct (method req); [done|].
  destruct (_ || _); [done|].
  destruct (session st !! "user_id") as [[uid|]|]; [|done..].
  simpl. split; [|done]. by apply (add_booking_ok uid _ _ _ "Booked").
Qed.

Lemma keeps_dashboard : keeps_store dashboard.
Proof.
  apply keeps_login_required, keeps_store_same. intros env req st.
  cbv zeta. by repeat case_bool_decide.
Qed.

Lemma keeps_send_alert : keeps_store send_alert.
Proof.
  apply keeps_login_required, keeps_store_same. intros env req st.
  by destruct (method req).
Qed.

Lemma keeps_home : keeps_store home.
Proof.
  apply keeps_store_same. intros env req st. unfold home.
  by destruct (contains _ _).
Qed.

Lemma keeps_view_bookings : keeps_store view_bookings.
Proof. by apply keeps_require_role, keeps_store_same. Qed.

Lemma keeps_profile : keeps_store profile.
Proof. apply keeps_login_required, keeps_profile_body. Qed.

Lemma keeps_reports : keeps_store reports.
Proof. by apply keeps_require_role, keeps_store_same. Qed.

Lemma keeps_manage_users : keeps_store manage_users.
Proof. by apply keeps_require_role, keeps_store_same. Qed.

Lemma keeps_trips_overview : keeps_store trips_overview.
Proof. by apply keeps_require_role, keeps_store_same. Qed.

(** Whatever the request, its path and its cookie. *)
Lemma keeps_dispatch_request path : keeps_store (dispatch_request path).
Proof.
  intros env req st Hok. unfold dispatch_request, url_map, match_rule.
  repeat (case_decide; [case_bool_decide; [|done]|]); [..|done].
  - by apply keeps_home.
  - by apply keeps_signup.
  - by apply keeps_login.
  - done.
  - by apply keeps_dashboard.
  - by apply keeps_book_trip.
  - by apply keeps_view_bookings.
  - by apply keeps_send_alert.
  - by apply keeps_profile.
  - by apply keeps_reports.
  - by apply keeps_manage_users.
  - by apply keeps_trips_overview.
Qed.

Lemma serve_all_keeps d xs :
  db_ok d →
  db_ok (serve_all d xs)
  ∧ (identity <$> users d) `prefix_of` (identity <$> users (serve_all d xs)).
Proof.
  revert d. induction xs as [|x xs IH]; intros d Hok; simpl; [done|].
  destruct (keeps_dispatch_request (x_path x) (x_env x) (x_request x)
              (mkState d (x_cookie x) []) Hok) as [Hok' Hpre].
  destruct (IH _ Hok') as [Hok'' Hpre'].
  split; [exact Hok''|]. etrans; [exact Hpre|exact Hpre'].
Qed.


(** A user row, once stored, keeps its place in the table and its id,
    email and role. *)
Lemma prefix_identity_elem (us us' : list User.t) u :
  (identity <$> us) `prefix_of` (identity <$> us') → u ∈ us →
  ∃ u', u' ∈ us' ∧ identity u' = identity u.
Proof.
  intros [k Hk] Hu.
  assert (identity u ∈ identity <$> us') as H.
  { rewrite Hk. apply elem_of_app. left. apply list_elem_of_fmap. eauto. }
  apply list_elem_of_fmap in H as (u' & E & Hu'). eauto.
Qed.

End Store.

(** ** Ordered queries *)

#[global] Instance desc_trans {A} (key : A → Z) : Transitive (desc key).
Proof. unfold desc. intros x y z ? ?. lia. Qed.

#[global] Instance desc_total {A} (key : A → Z) : Total (desc key).
Proof. unfold desc. intros x y. lia. Qed.

Lemma order_by_desc_Permutation {A} (key : A → Z) rows :
  order_by_desc key rows ≡ₚ rows.
Proof. apply merge_sort_Permutation. Qed.

Lemma order_by_desc_sorted {A} (key : A → Z) rows :
  StronglySorted (desc key) (order_by_desc key rows).
Proof. apply StronglySorted_merge_sort; apply _. Qed.

Lemma order_by_desc_elem {A} (key : A → Z) rows x :
  x ∈ order_by_desc key rows ↔ x ∈ rows.
Proof. by rewrite order_by_desc_Permutation. Qed.

Lemma filter_by_passenger_owned uid rows :
  filter_by_passenger (Some (VInt uid)) rows = owned_by uid rows.
Proof.
  unfold filter_by_passenger, owned_by. apply list_filter_iff.
  intros b. split; [by intros [= ->]|by intros ->].
Qed.

Lemma contains_true k (s : gmap string sval) v : s !! k = Some v → contains k s = true.
Proof. intros E. unfold contains. rewrite E. done. Qed.

Lemma contains_false k (s : gmap string sval) : s !! k = None → contains k s = false.
Proof. intros E. unfold contains. rewrite E. apply bool_decide_eq_false. by intros [? ?]. Qed.

(** ** The authorization gate *)

Lemma require_role_pass role fn env req st uid :
  logged_in uid role (session st) → require_role role fn env req st = fn env req st.
Proof.
  intros [Hu Hr]. unfold require_role.
  rewrite (contains_true _ _ _ Hu). simpl. by rewrite bool_decide_eq_false_2 by auto.
Qed.

Lemma login_required_pass fn env req st v :
  session st !! "user_id" = Some v → login_required fn env req st = fn env req st.
Proof. intros Hu. unfold login_required. by rewrite (contains_true _ _ _ Hu). Qed.

(** C4. A route under [require_role(expected)]: without a session the
    request is redirected to the login page, with a session of another
    role (an admin on a passenger route as well) it is redirected to the
    dashboard with the not-authorized message, and in both cases the answer
    and the state do not depend on the handler, which is not run; with a
    session of the expected role the request is the handler's. *)
Theorem require_role_gate (expected : string) (fn : view) env req st :
  (session st !! "user_id" = None →
     require_role expected fn env req st
     = (redirect "/login", flash "Please log in first." "error" st))
  ∧ (is_Some (session st !! "user_id") →
     session st !! "role" ≠ Some (VStr expected) →
     require_role expected fn env req st
     = (redirect "/dashboard",
        flash "You are not authorized to view that page." "error" st))
  ∧ (is_Some (session st !! "user_id") →
     session st !! "role" = Some (VStr expected) →
     require_role expected fn env req st = fn env req st).
Proof.
  unfold require_role. repeat split.
  - intros Hn. by rewrite (contains_false _ _ Hn).
  - intros [v Hv] Hr. rewrite (contains_true _ _ _ Hv). simpl.
    by rewrite bool_decide_eq_true_2.
  - intros [v Hv] Hr. rewrite (contains_true _ _ _ Hv). simpl.
    by rewrite bool_decide_eq_false_2 by auto.
Qed.

(** ** Bookings *)

(** C5. A POST to [/book-trip] in a passenger session: when a field is
    blank (empty once stripped) the request is turned back and the store
    is as before; otherwise the Booking table gains exactly one row, with
    status [Booked] and the session's user id as passenger, and nothing
    else changes. *)
Theorem book_trip_post env req st uid :
  method req = POST →
  logged_in uid "passenger" (session st) →
  let trip_date := Py.strip (form_get "trip_date" "" req) in
  let origin := Py.strip (form_get "origin" "" req) in
  let destination := Py.strip (form_get "destination" "" req) in
  (trip_date = "" ∨ origin = "" ∨ destination = "" →
     book_trip env req st
     = (redirect "/book-trip", flash "Please complete all trip fields." "error" st))
  ∧ (trip_date ≠ "" → origin ≠ "" → destination ≠ "" →
     ∃ b,
       book_trip env req st
       = (redirect "/view-bookings",
          flash "Trip booked successfully!" "success"
            (with_db (mkDB (users (db st)) (bookings (db st) ++ [b])) st))
       ∧ Booking.status b = Some "Booked"
       ∧ Booking.passenger_id b = uid
       ∧ Booking.trip_date b = trip_date
       ∧ Booking.origin b = origin
       ∧ Booking.destination b = destination).
Proof.
  intros Hm Hs trip_date origin destination.
  unfold book_trip. rewrite (require_role_pass _ _ _ _ _ _ Hs).
  unfold book_trip_body. rewrite Hm. fold trip_date origin destination.
  destruct Hs as [Hu _]. split.
  - intros Hblank.
    assert (negb (Py.truthy trip_date) || negb (Py.truthy origin)
            || negb (Py.truthy destination) = true) as ->; [|done].
    destruct Hblank as [E | [E | E]]; rewrite E; simpl; by rewrite ?orb_true_r.
  - intros Ht%truthy_true Ho%truthy_true Hd%truthy_true.
    rewrite Ht, Ho, Hd, Hu. simpl. eexists. split; [reflexivity|done].
Qed.

(** C6. [/view-bookings] in a passenger session shows exactly the rows of
    the Booking table whose passenger is the session's user, newest first
    by [created_at]; no row of another passenger is among them. *)
Theorem view_bookings_own env req st uid :
  logged_in uid "passenger" (session st) →
  ∃ shown,
    view_bookings env req st
    = (render_template "view_bookings.html"
         [("bookings", TBookings shown); ("active", TStr "view_bookings")], st)
    ∧ shown ≡ₚ owned_by uid (bookings (db st))
    ∧ newest_first shown
    ∧ (∀ b, b ∈ shown → b ∈ bookings (db st) ∧ Booking.passenger_id b = uid).
Proof.
  intros Hs. unfold view_bookings. rewrite (require_role_pass _ _ _ _ _ _ Hs).
  unfold view_bookings_body. destruct Hs as [-> _].
  rewrite filter_by_passenger_owned. eexists. split; [reflexivity|].
  split; [apply order_by_desc_Permutation|].
  split; [apply order_by_desc_sorted|].
  intros b Hb%order_by_desc_elem. unfold owned_by in Hb.
  apply list_elem_of_filter in Hb as [? ?]. done.
Qed.

Lemma filter_iff_elem {A} (P Q : A → Prop)
    `{∀ x, Decision (P x)} `{∀ x, Decision (Q x)} (l : list A) :
  (∀ x, x ∈ l → (P x ↔ Q x)) → filter P l = filter Q l.
Proof.
  induction l as [|x l IH]; intros HPQ; [done|].
  rewrite !filter_cons.
  rewrite IH by (intros y Hy; apply HPQ; by right).
  destruct (decide (P x)) as [HP|HP], (decide (Q x)) as [HQ|HQ]; try done.
  - destruct HQ. by apply (HPQ x); [left|].
  - destruct HP. by apply (HPQ x); [left|].
Qed.

Lemma filter_status_ne_not v rows :
  Forall (λ b, is_Some (Booking.status b)) rows →
  filter_status_ne v rows = filter (λ b, ¬ Booking.status b = Some v) rows.
Proof.
  intros Hall. apply filter_iff_elem. intros b Hb.
  rewrite Forall_forall in Hall. destruct (Hall b Hb) as [s Es].
  rewrite Es. simpl. rewrite bool_decide_spec. split; congruence.
Qed.

(** C7. The passenger dashboard: [trips] holds the passenger's bookings
    whose status is not [Completed], [history] those whose status is
    [Completed]; no booking is in both, together they are all the
    bookings of the passenger, and each list is newest first. *)
Theorem dashboard_partition env req st uid :
  db_ok (db st) →
  logged_in uid "passenger" (session st) →
  ∃ upcoming history,
    dashboard env req st
    = (render_template "passenger_dashboard.html"
         [("name", tval_of (Some (default (VStr "User") (session st !! "name"))));
          ("role", TStr "passenger"); ("active", TStr "dashboard");
          ("trips", TBookings upcoming); ("history", TBookings history)], st)
    ∧ upcoming ≡ₚ filter (λ b, Booking.status b ≠ Some "Completed")
                    (owned_by uid (bookings (db st)))
    ∧ history ≡ₚ filter (λ b, Booking.status b = Some "Completed")
                   (owned_by uid (bookings (db st)))
    ∧ (∀ b, b ∈ upcoming → b ∉ history)
    ∧ upcoming ++ history ≡ₚ owned_by uid (bookings (db st))
    ∧ newest_first upcoming
    ∧ newest_first history.
Proof.
  intros (_ & _ & _ & Hst) [Hu Hr].
  unfold dashboard. rewrite (login_required_pass _ _ _ _ _ Hu). cbv zeta.
  rewrite Hr, Hu. rewrite !bool_decide_eq_false_2 by (by intros [=]).
  rewrite filter_by_passenger_owned.
  assert (Forall (λ b, is_Some (Booking.status b)) (owned_by uid (bookings (db st))))
    as Hown.
  { rewrite Forall_forall in *. intros b Hb. apply Hst.
    unfold owned_by in Hb. by apply list_elem_of_filter in Hb as [_ ?]. }
  rewrite (filter_status_ne_not _ _ Hown). unfold filter_by_status.
  set (own := owned_by uid (bookings (db st))).
  eexists _, _. split; [reflexivity|].
  split; [apply order_by_desc_Permutation|].
  split; [apply order_by_desc_Permutation|].
  split.
  { intros b Hb%order_by_desc_elem Hb'%order_by_desc_elem.
    apply list_elem_of_filter in Hb as [Hne _].
    apply list_elem_of_filter in Hb' as [He _]. done. }
  split.
  { rewrite !order_by_desc_Permutation, Permutation_app_comm.
    apply filter_app_complement. }
  split; apply order_by_desc_sorted.
Qed.

(** ** Administration *)

Lemma id_lt_reverse_desc us :
  StronglySorted id_lt us → StronglySorted (desc User.id) (reverse us).
Proof.
  intros Hs. apply Sorted_StronglySorted; [apply _|].
  apply StronglySorted_Sorted, Sorted_reverse in Hs.
  eapply Sorted_fmap with (f := λ u : User.t, u) in Hs.
  - rewrite list_fmap_id in Hs. exact Hs.
  - unfold flip, id_lt, desc. intros x y. simpl. lia.
Qed.

(** With ids growing along the table, any answer to
    [order_by(User.id.desc())] is the table backwards. *)
Lemma order_by_id_desc_reverse us :
  StronglySorted id_lt us → order_by_desc User.id us = reverse us.
Proof.
  intros Hs. apply (StronglySorted_unique_strong (desc User.id)).
  - intros x y Hx%order_by_desc_elem Hy. rewrite elem_of_reverse in Hy.
    unfold desc. intros ? ?. apply (ids_inj us); [done..|lia].
  - apply order_by_desc_sorted.
  - by apply id_lt_reverse_desc.
  - by rewrite order_by_desc_Permutation, reverse_Permutation.
Qed.

(** C9. [/manage-users] in an admin session lists every user row, the
    most recently created first: the user table, which grows at its end,
    read backwards. *)
Theorem manage_users_newest_first env req st uid :
  db_ok (db st) →
  logged_in uid "admin" (session st) →
  manage_users env req st
  = (render_template "admin_dashboard.html"
       [("active", TStr "manage_users"); ("name", tval_of (session st !! "name"));
        ("role", TStr "admin"); ("users", TUsers (reverse (users (db st))))], st).
Proof.
  intros (Hs & _) Hl. unfold manage_users.
  rewrite (require_role_pass _ _ _ _ _ _ Hl). unfold manage_users_body.
  by rewrite (order_by_id_desc_reverse _ Hs).
Qed.

(** ** Authentication *)

Section Auth.

Context {S : Py.Str} {W : Werkzeug}.

Lemma session_of_open u s : session_of u (open_session u s).
Proof.
  unfold session_of, open_session. repeat split.
  - rewrite lookup_insert_ne by done. rewrite lookup_insert_ne by done.
    apply lookup_insert_eq.
  - rewrite lookup_insert_ne by done. apply lookup_insert_eq.
  - apply lookup_insert_eq.
Qed.

Lemma signup_invalid env req st :
  method req = POST →
  Py.lower (Py.strip (form_get "email" "" req)) = ""
  ∨ form_get "password" "" req = ""
  ∨ form_get "role" "passenger" req ∉ ["passenger"; "driver"; "admin"] →
  signup env req st
  = (redirect "/signup", flash "Please fill all fields correctly." "error" st).
Proof.
  intros Hm Hbad. unfold signup. rewrite Hm.
  destruct Hbad as [E | [E | E]].
  - by rewrite E.
  - rewrite E. simpl. by rewrite orb_true_r.
  - rewrite (bool_decide_eq_false_2 _ E). simpl. by rewrite orb_true_r.
Qed.

Lemma signup_valid_cond req :
  Py.lower (Py.strip (form_get "email" "" req)) ≠ "" →
  form_get "password" "" req ≠ "" →
  form_get "role" "passenger" req ∈ ["passenger"; "driver"; "admin"] →
  negb (Py.truthy (Py.lower (Py.strip (form_get "email" "" req))))
  || negb (Py.truthy (form_get "password" "" req))
  || negb (bool_decide
             (form_get "role" "passenger" req ∈ ["passenger"; "driver"; "admin"]))
  = false.
Proof.
  intros He%truthy_true Hp%truthy_true Hr.
  by rewrite He, Hp, (bool_decide_eq_true_2 _ Hr).
Qed.

Lemma signup_conflict env req st :
  method req = POST →
  Py.lower (Py.strip (form_get "email" "" req)) ≠ "" →
  form_get "password" "" req ≠ "" →
  form_get "role" "passenger" req ∈ ["passenger"; "driver"; "admin"] →
  Py.lower (Py.strip (form_get "email" "" req)) ∈ User.email <$> users (db st) →
  signup env req st
  = (redirect "/login", flash "Email already registered. Please log in." "error" st).
Proof.
  intros Hm He Hp Hr Hin. unfold signup.
  rewrite Hm, (signup_valid_cond req He Hp Hr).
  destruct (first _) eqn:E; [done|].
  by apply first_filter_by_email_None in E.
Qed.

Lemma signup_created env req st :
  method req = POST →
  Py.lower (Py.strip (form_get "email" "" req)) ≠ "" →
  form_get "password" "" req ≠ "" →
  form_get "role" "passenger" req ∈ ["passenger"; "driver"; "admin"] →
  Py.lower (Py.strip (form_get "email" "" req)) ∉ User.email <$> users (db st) →
  signup env req st
  = (redirect "/dashboard",
     flash "Signup successful. Welcome!" "success"
       (mkState (mkDB (users (db st) ++ [new_user env req (db st)])
                      (bookings (db st)))
                (open_session (new_user env req (db st)) (session st))
                (flashed st))).
Proof.
  intros Hm He Hp Hr Hout. unfold signup.
  rewrite Hm, (signup_valid_cond req He Hp Hr).
  rewrite (proj2 (first_filter_by_email_None _ _) Hout).
  by rewrite (add_user_Some _ _ _ _ _ Hout).
Qed.

(** Only the branch that stored a row answers with the dashboard. *)
Lemma signup_dashboard_inv env req st :
  (signup env req st).1 = redirect "/dashboard" →
  method req = POST
  ∧ Py.lower (Py.strip (form_get "email" "" req)) ≠ ""
  ∧ form_get "password" "" req ≠ ""
  ∧ form_get "role" "passenger" req ∈ ["passenger"; "driver"; "admin"]
  ∧ Py.lower (Py.strip (form_get "email" "" req)) ∉ User.email <$> users (db st).
Proof.
  unfold signup. destruct (method req); [done|].
  destruct (_ || _) eqn:Ev; [done|].
  apply orb_false_iff in Ev as [[Ee Ep]%orb_false_iff Er].
  apply negb_false_iff, truthy_true in Ee.
  apply negb_false_iff, truthy_true in Ep.
  apply negb_false_iff, bool_decide_eq_true in Er.
  destruct (first _) eqn:E; [done|].
  apply first_filter_by_email_None in E. done.
Qed.

Lemma login_found env req st u :
  db_ok (db st) → u ∈ users (db st) → method req = POST →
  same_address (form_get "email" "" req) (User.email u) →
  login env req st
  = if check_password_hash (User.password u) (form_get "password" "" req) then
      (redirect "/dashboard",
       flash "Login successful!" "success"
         (with_session (open_session u (session st)) st))
    else
      (redirect "/login", flash "Invalid email or password." "error" st).
Proof.
  intros (_ & Hnd & Hnf & _) Hu Hm Hsame. unfold login. rewrite Hm.
  assert (Py.lower (Py.strip (form_get "email" "" req)) = User.email u) as ->.
  { rewrite Hsame. rewrite Forall_forall in Hnf. apply Hnf.
    apply list_elem_of_fmap. eauto. }
  by rewrite (first_filter_by_email_Some _ _ Hnd Hu).
Qed.

Lemma login_unknown env req st :
  method req = POST →
  Py.lower (Py.strip (form_get "email" "" req)) ∉ User.email <$> users (db st) →
  login env req st
  = (redirect "/login", flash "Invalid email or password." "error" st).
Proof.
  intros Hm Hout. unfold login. rewrite Hm.
  by rewrite (proj2 (first_filter_by_email_None _ _) Hout).
Qed.

End Auth.

(** C2, as the code has it.  A signup POST whose address (stripped, in
    lower case) is not empty and not registered, with a password that is
    not empty and one of the three roles, succeeds: the user table gains
    exactly one row and the session is opened for it.  A signup POST
    whose address is registered fails, and leaves the store and the
    session as they were. *)
Theorem signup_fresh_or_taken `{W : Werkzeug} env req st :
  method req = POST →
  let email := Py.lower (Py.strip (form_get "email" "" req)) in
  let password := form_get "password" "" req in
  let role := form_get "role" "passenger" req in
  (email ≠ "" → password ≠ "" → role ∈ ["passenger"; "driver"; "admin"] →
   email ∉ User.email <$> users (db st) →
     ∃ u,
       signup env req st
       = (redirect "/dashboard",
          flash "Signup successful. Welcome!" "success"
            (mkState (mkDB (users (db st) ++ [u]) (bookings (db st)))
                     (open_session u (session st)) (flashed st)))
       ∧ User.email u = email
       ∧ session_of u (open_session u (session st)))
  ∧ (email ∈ User.email <$> users (db st) →
     ∃ target message,
       signup env req st = (redirect target, flash message "error" st)
       ∧ target ≠ "/dashboard").
Proof.
  intros Hm email password role. split.
  - intros He Hp Hr Hout. exists (new_user env req (db st)).
    split; [by apply signup_created|]. split; [done|apply session_of_open].
  - intros Hin.
    destruct (decide (email = "")) as [He|He];
      [|destruct (decide (password = "")) as [Hp|Hp];
        [|destruct (decide (role ∈ ["passenger"; "driver"; "admin"])) as [Hr|Hr]]].
    + eexists _, _. split; [apply signup_invalid; auto|done].
    + eexists _, _. split; [apply signup_invalid; auto|done].
    + eexists _, _. split; [by apply signup_conflict|done].
    + eexists _, _. split; [apply signup_invalid; auto|done].
Qed.

(** C3. A signup POST is refused with the validation message when the
    address is empty, the password is empty or the role is none of the
    three; then, with the conflict message, when the address is
    registered; in both cases the state is as before but for the flashed
    message.  Otherwise one user row is added, whose password column is
    werkzeug's salted hash of the submitted password, and the session
    holds the id, role and name of that row. *)
Theorem signup_cases `{W : Werkzeug} env req st :
  hash_verifies W →
  method req = POST →
  let email := Py.lower (Py.strip (form_get "email" "" req)) in
  let password := form_get "password" "" req in
  let role := form_get "role" "passenger" req in
  (email = "" ∨ password = "" ∨ role ∉ ["passenger"; "driver"; "admin"] →
     signup env req st
     = (redirect "/signup", flash "Please fill all fields correctly." "error" st))
  ∧ (email ≠ "" → password ≠ "" → role ∈ ["passenger"; "driver"; "admin"] →
     email ∈ User.email <$> users (db st) →
     signup env req st
     = (redirect "/login",
        flash "Email already registered. Please log in." "error" st))
  ∧ (email ≠ "" → password ≠ "" → role ∈ ["passenger"; "driver"; "admin"] →
     email ∉ User.email <$> users (db st) →
     ∃ u,
       signup env req st
       = (redirect "/dashboard",
          flash "Signup successful. Welcome!" "success"
            (mkState (mkDB (users (db st) ++ [u]) (bookings (db st)))
                     (open_session u (session st)) (flashed st)))
       ∧ User.email u = email
       ∧ User.role u = role
       ∧ User.password u = generate_password_hash (gen_salt env) password
       ∧ check_password_hash (User.password u) password = true
       ∧ session_of u (open_session u (session st))).
Proof.
  intros Hv Hm email password role. repeat split.
  - by apply signup_invalid.
  - by apply signup_conflict.
  - intros He Hp Hr Hout. exists (new_user env req (db st)).
    split; [by apply signup_created|]. repeat split; try apply session_of_open.
    apply Hv.
Qed.


(** C1, as the code has it.  After a successful signup with address [e]
    and password [p], and after any further requests of any browsers that
    leave the password column of the new row as signup wrote it, a login
    with [e] (up to case and surrounding whitespace) and [p] is accepted
    and opens a session with the id, role and name of that user.  And for
    every stored user, a login with the user's address and a password
    that does not pass the hash check is refused, the session being left
    as it was. *)
Theorem login_after_signup `{W : Werkzeug} :
  hash_verifies W →
  (∀ env req st xs env' req' cookie log,
     db_ok (db st) →
     (signup env req st).1 = redirect "/dashboard" →
     let created := new_user env req (db st) in
     let later := serve_all (db (signup env req st).2) xs in
     Forall (λ u, User.id u = User.id created →
                  User.password u = User.password created) (users later) →
     method req' = POST →
     same_address (form_get "email" "" req') (form_get "email" "" req) →
     form_get "password" "" req' = form_get "password" "" req →
     users (db (signup env req st).2) = (users (db st) ++ [created])%list
     ∧ ∃ u,
         u ∈ users later
         ∧ identity u = identity created
         ∧ login env' req' (mkState later cookie log)
           = (redirect "/dashboard",
              flash "Login successful!" "success"
                (mkState later (open_session u cookie) log))
         ∧ session_of u (open_session u cookie))
  ∧ (∀ env req st (u : User.t),
       db_ok (db st) → u ∈ users (db st) → method req = POST →
       same_address (form_get "email" "" req) (User.email u) →
       check_password_hash (User.password u) (form_get "password" "" req) = false →
       login env req st
       = (redirect "/login", flash "Invalid email or password." "error" st)).
Proof.
  intros Hv. split.
  - intros env req st xs env' req' cookie log Hok Hdash created later
      Hkept Hm' Hsame Hpw.
    destruct (signup_dashboard_inv _ _ _ Hdash) as (Hm & He & Hp & Hr & Hout).
    destruct (keeps_signup env req st Hok) as [Hok1 _].
    destruct (serve_all_keeps (db (signup env req st).2) xs Hok1) as [Hok2 Hpre].
    fold later in Hok2, Hpre.
    assert (users (db (signup env req st).2) = (users (db st) ++ [created])%list)
      as Hrow by (by rewrite (signup_created env req st Hm He Hp Hr Hout)).
    split; [exact Hrow|].
    destruct (prefix_identity_elem _ (users later) created Hpre)
      as (u & Hu & Hid).
    { rewrite Hrow. apply elem_of_app. right. by left. }
    exists u. split; [done|]. split; [done|]. split; [|apply session_of_open].
    injection Hid as Eid Eem Ero.
    rewrite (login_found env' req' (mkState later cookie log) u Hok2 Hu Hm').
    + rewrite Forall_forall in Hkept.
      rewrite (Hkept u Hu Eid), Hpw. unfold created, new_user. simpl.
      by rewrite Hv.
    + unfold same_address, caseless in *. rewrite Hsame, Eem.
      unfold created, new_user. simpl. by rewrite normal_form_fixed.
  - intros env req st u Hok Hu Hm Hsame Hc.
    by rewrite (login_found env req st u Hok Hu Hm Hsame), Hc.
Qed.

(** ** Profile *)

Lemma update_user_in_place user u d :
  StronglySorted id_lt (users d) → u ∈ users d → User.id user = User.id u →
  update_user user d
  = mkDB ((λ r, if decide (r = u) then user else r) <$> users d) (bookings d).
Proof.
  intros Hs Hu Eid. unfold update_user. f_equal.
  apply list_fmap_ext. intros i r Hr%list_elem_of_lookup_2.
  destruct (decide (User.id r = User.id user)) as [E|E], (decide (r = u)) as [E'|E'];
    try done.
  - destruct E'. apply (ids_inj (users d)); [done..|congruence].
  - subst r. congruence.
Qed.

(** A user row, once stored, keeps its id, email and role through any
    requests: no handler assigns them. *)
Lemma identity_kept `{W : Werkzeug} d xs (r r' : User.t) :
  db_ok d → r ∈ users d → r' ∈ users (serve_all d xs) →
  User.id r' = User.id r → identity r' = identity r.
Proof.
  intros Hok Hr Hr' Eid.
  destruct (serve_all_keeps d xs Hok) as [(Hs & _) Hpre].
  destruct (prefix_identity_elem _ _ r Hpre Hr) as (r'' & Hr'' & E).
  assert (r'' = r') as ->; [|done].
  apply (ids_inj (users (serve_all d xs))); [done..|].
  injection E as -> _ _. done.
Qed.

(** What a POST to [/profile] writes, for the user of the session: the
    name when the stripped [name] field is not empty, also in the
    session; the hash of the stripped [password] field when that is not
    empty; nothing else of the row, no other row, no booking.  And no
    sequence of requests changes the id, email or role of a stored user. *)
Lemma profile_frame `{W : Werkzeug} :
  (∀ env req st (u : User.t),
     db_ok (db st) → u ∈ users (db st) →
     session st !! "user_id" = Some (VInt (User.id u)) →
     method req = POST →
     let name := Py.strip (form_get "name" "" req) in
     let pwd := Py.strip (form_get "password" "" req) in
     ∃ u' session',
       profile env req st
       = (redirect "/profile",
          flash "Profile updated!" "success"
            (mkState (mkDB ((λ r, if decide (r = u) then u' else r) <$> users (db st))
                           (bookings (db st)))
                     session' (flashed st)))
       ∧ identity u' = identity u
       ∧ (name ≠ "" →
          User.name u' = name ∧ session' = <["name" := VStr name]> (session st))
       ∧ (name = "" → User.name u' = User.name u ∧ session' = session st)
       ∧ (pwd ≠ "" →
          User.password u' = generate_password_hash (gen_salt env) pwd)
       ∧ (pwd = "" → User.password u' = User.password u))
  ∧ (∀ d xs (r r' : User.t),
       db_ok d → r ∈ users d → r' ∈ users (serve_all d xs) →
       User.id r' = User.id r →
       User.role r' = User.role r ∧ User.email r' = User.email r).
Proof.
  split.
  - intros env req st u Hok Hu Hsess Hm name pwd.
    unfold profile. rewrite (login_required_pass _ _ _ _ _ Hsess).
    unfold profile_body. rewrite Hsess, Hm.
    destruct Hok as (Hs & _).
    rewrite (query_get_Some _ _ Hs Hu). fold name pwd.
    eexists _, _. split.
    { unfold with_session, with_db. simpl db. simpl flashed.
      rewrite (update_user_in_place _ u (db st) Hs Hu); [reflexivity|].
      by destruct (Py.truthy pwd), (Py.truthy name). }
    split; [by destruct (Py.truthy pwd), (Py.truthy name)|].
    split; [intros ->%truthy_true; by destruct (Py.truthy pwd)|].
    split; [intros ->%truthy_false; by destruct (Py.truthy pwd)|].
    split; [by intros ->%truthy_true|].
    intros ->%truthy_false. by destruct (Py.truthy name).
  - intros d xs r r' Hok Hr Hr' Eid.
    pose proof (identity_kept d xs r r' Hok Hr Hr' Eid) as E.
    injection E as _ Eem Ero. done.
Qed.

(** * The properties at work on the small store *)

Lemma demo_store_ok : db_ok Demo.store.
Proof. compute_done. Qed.

Lemma toy_verifies : hash_verifies toy.
Proof. intros salt p. apply toy_check_generate. Qed.

Lemma require_role_gate_witness :
  view_bookings Demo.env1 Demo.get Demo.anonymous
  = (redirect "/login", flash "Please log in first." "error" Demo.anonymous)
  ∧ manage_users Demo.env1 Demo.get (Demo.as_user Demo.ann)
    = (redirect "/dashboard",
       flash "You are not authorized to view that page." "error"
         (Demo.as_user Demo.ann))
  ∧ book_trip Demo.env1 (Demo.book "2024-01-01") (Demo.as_user Demo.root)
    = (redirect "/dashboard",
       flash "You are not authorized to view that page." "error"
         (Demo.as_user Demo.root))
  ∧ manage_users Demo.env1 Demo.get (Demo.as_user Demo.root)
    = manage_users_body Demo.env1 Demo.get (Demo.as_user Demo.root).
Proof.
  split; [|split; [|split]].
  - apply (require_role_gate "passenger" view_bookings_body). reflexivity.
  - apply (require_role_gate "admin" manage_users_body); compute_done.
  - apply (require_role_gate "passenger" book_trip_body); compute_done.
  - apply (require_role_gate "admin" manage_users_body); compute_done.
Defined.

Lemma book_trip_post_witness :
  logged_in 1 "passenger" (session (Demo.as_user Demo.ann))
  ∧ book_trip Demo.env1 (Demo.book "  ") (Demo.as_user Demo.ann)
    = (redirect "/book-trip",
       flash "Please complete all trip fields." "error" (Demo.as_user Demo.ann))
  ∧ ∃ b,
      book_trip Demo.env1 (Demo.book " 2024-02-02") (Demo.as_user Demo.ann)
      = (redirect "/view-bookings",
         flash "Trip booked successfully!" "success"
           (with_db (mkDB (users Demo.store) (bookings Demo.store ++ [b]))
                    (Demo.as_user Demo.ann)))
      ∧ Booking.status b = Some "Booked"
      ∧ Booking.passenger_id b = 1
      ∧ Booking.trip_date b = "2024-02-02"
      ∧ Booking.origin b = "X"
      ∧ Booking.destination b = "Y".
Proof.
  assert (logged_in 1 "passenger" (session (Demo.as_user Demo.ann))) as Hl
    by compute_done.
  split; [exact Hl|]. split.
  - apply (book_trip_post Demo.env1 (Demo.book "  ") (Demo.as_user Demo.ann) 1
             eq_refl Hl).
    left. reflexivity.
  - apply (book_trip_post Demo.env1 (Demo.book " 2024-02-02")
             (Demo.as_user Demo.ann) 1 eq_refl Hl); compute_done.
Defined.

Lemma view_bookings_own_witness :
  ∃ shown,
    view_bookings Demo.env1 Demo.get (Demo.as_user Demo.ann)
    = (render_template "view_bookings.html"
         [("bookings", TBookings shown); ("active", TStr "view_bookings")],
       Demo.as_user Demo.ann)
    ∧ shown ≡ₚ [Demo.trip 1 1 "Booked" 10; Demo.trip 3 1 "Completed" 30;
                Demo.trip 4 1 "Booked" 40]
    ∧ newest_first shown.
Proof.
  destruct (view_bookings_own Demo.env1 Demo.get (Demo.as_user Demo.ann) 1)
    as (shown & E & Hp & Hn & _); [compute_done|].
  exists shown. repeat split; assumption.
Defined.

Lemma dashboard_partition_witness :
  ∃ upcoming history,
    (dashboard Demo.env1 Demo.get (Demo.as_user Demo.ann)).1
    = render_template "passenger_dashboard.html"
        [("name", TStr "Ann"); ("role", TStr "passenger");
         ("active", TStr "dashboard");
         ("trips", TBookings upcoming); ("history", TBookings history)]
    ∧ (∀ b, b ∈ upcoming → b ∉ history)
    ∧ upcoming ++ history
      ≡ₚ [Demo.trip 1 1 "Booked" 10; Demo.trip 3 1 "Completed" 30;
          Demo.trip 4 1 "Booked" 40]
    ∧ newest_first upcoming ∧ newest_first history.
Proof.
  destruct (dashboard_partition Demo.env1 Demo.get (Demo.as_user Demo.ann) 1)
    as (upcoming & history & E & _ & _ & Hd & Hu & Hn & Hn');
    [exact demo_store_ok|compute_done|].
  exists upcoming, history. rewrite E. repeat split; assumption.
Defined.

Lemma manage_users_newest_first_witness :
  manage_users Demo.env1 Demo.get (Demo.as_user Demo.root)
  = (render_template "admin_dashboard.html"
       [("active", TStr "manage_users"); ("name", TStr "Root");
        ("role", TStr "admin");
        ("users", TUsers [Demo.root; Demo.bob; Demo.ann])],
     Demo.as_user Demo.root).
Proof.
  apply (manage_users_newest_first Demo.env1 Demo.get (Demo.as_user Demo.root) 3);
    [exact demo_store_ok|compute_done].
Defined.

(** C2 as stated fails: a signup with an address that is not registered,
    but with an empty password, is turned back to the form; no row is
    stored and no session is opened. *)
Lemma signup_unused_email_refused :
  (Py.lower (Py.strip (form_get "email" "" Demo.signup_no_password))
     ∉ User.email <$> users (db Demo.empty))
  ∧ signup (W := toy) Demo.env1 Demo.signup_no_password Demo.empty
    = (redirect "/signup",
       flash "Please fill all fields correctly." "error" Demo.empty).
Proof. split; [compute_done|reflexivity]. Qed.

Lemma signup_fresh_or_taken_witness :
  (∃ u,
     signup (W := toy) Demo.env2 Demo.signup_carl (Demo.as_user Demo.ann)
     = (redirect "/dashboard",
        flash "Signup successful. Welcome!" "success"
          (mkState (mkDB (users Demo.store ++ [u]) (bookings Demo.store))
                   (open_session u (open_session Demo.ann ∅)) []))
     ∧ User.email u = "carl@x.com"
     ∧ session_of u (open_session u (open_session Demo.ann ∅)))
  ∧ ∃ target message,
      signup (W := toy) Demo.env2 Demo.signup_ann Demo.anonymous
      = (redirect target, flash message "error" Demo.anonymous)
      ∧ target ≠ "/dashboard".
Proof.
  split.
  - apply (signup_fresh_or_taken (W := toy) Demo.env2 Demo.signup_carl
             (Demo.as_user Demo.ann) eq_refl); compute_done.
  - apply (signup_fresh_or_taken (W := toy) Demo.env2 Demo.signup_ann
             Demo.anonymous eq_refl); compute_done.
Defined.

Lemma signup_cases_witness :
  signup (W := toy) Demo.env1 Demo.signup_no_password Demo.anonymous
  = (redirect "/signup",
     flash "Please fill all fields correctly." "error" Demo.anonymous)
  ∧ signup (W := toy) Demo.env1 Demo.signup_ann Demo.anonymous
    = (redirect "/login",
       flash "Email already registered. Please log in." "error" Demo.anonymous)
  ∧ ∃ u,
      signup (W := toy) Demo.env2 Demo.signup_carl Demo.anonymous
      = (redirect "/dashboard",
         flash "Signup successful. Welcome!" "success"
           (mkState (mkDB (users Demo.store ++ [u]) (bookings Demo.store))
                    (open_session u ∅) []))
      ∧ User.email u = "carl@x.com"
      ∧ User.role u = "driver"
      ∧ User.password u = "s2$pw4"
      ∧ toy_check (User.password u) "pw4" = true
      ∧ session_of u (open_session u ∅).
Proof.
  split; [|split].
  - apply (signup_cases (W := toy) Demo.env1 Demo.signup_no_password
             Demo.anonymous toy_verifies eq_refl).
    right. left. reflexivity.
  - apply (signup_cases (W := toy) Demo.env1 Demo.signup_ann
             Demo.anonymous toy_verifies eq_refl); compute_done.
  - apply (signup_cases (W := toy) Demo.env2 Demo.signup_carl
             Demo.anonymous toy_verifies eq_refl); compute_done.
Defined.



(** C1 as stated fails: Ann signs up with [pw1], replaces her password
    through the profile form, and a later login with the address and
    password of the signup is refused, with no session opened. *)
Lemma login_refused_after_password_change :
  let signed_up := (signup (W := toy) Demo.env1 Demo.signup_ann Demo.empty).2 in
  let later :=
    serve_all (W := toy) (db signed_up)
      [mkExchange "/profile" Demo.env2 (Demo.change_password "pw9")
                  (session signed_up)] in
  (signup (W := toy) Demo.env1 Demo.signup_ann Demo.empty).1 = redirect "/dashboard"
  ∧ users (db signed_up) = [Demo.ann]
  ∧ users later = [User.set_password "s2$pw9" Demo.ann]
  ∧ login (W := toy) Demo.env2 (Demo.login_ann "pw1") (mkState later ∅ [])
    = (redirect "/login",
       flash "Invalid email or password." "error" (mkState later ∅ [])).
Proof. repeat split. Qed.

Lemma login_after_signup_witness :
  let signed_up := (signup (W := toy) Demo.env1 Demo.signup_ann Demo.empty).2 in
  let later :=
    serve_all (W := toy) (db signed_up)
      [mkExchange "/book-trip" Demo.env1 (Demo.book "2024-03-03") (session signed_up);
       mkExchange "/signup" Demo.env2 Demo.signup_carl ∅;
       mkExchange "/profile" Demo.env2 (Demo.rename "Anna") (session signed_up);
       mkExchange "/logout" Demo.env2 Demo.get (session signed_up)] in
  (∃ u,
     u ∈ users later
     ∧ identity u = (1, "ann@x.com", "passenger")
     ∧ User.name u = "Anna"
     ∧ login (W := toy) Demo.env2 (Demo.login_ann "pw1") (mkState later ∅ [])
       = (redirect "/dashboard",
          flash "Login successful!" "success"
            (mkState later (open_session u ∅) []))
     ∧ session_of u (open_session u ∅))
  ∧ login (W := toy) Demo.env2 (Demo.login_ann "pw2") Demo.anonymous
    = (redirect "/login",
       flash "Invalid email or password." "error" Demo.anonymous).
Proof.
  intros signed_up later.
  destruct (login_after_signup (W := toy) toy_verifies) as [Hin Hout].
  split.
  - destruct (Hin Demo.env1 Demo.signup_ann Demo.empty
                [mkExchange "/book-trip" Demo.env1 (Demo.book "2024-03-03")
                            (session signed_up);
                 mkExchange "/signup" Demo.env2 Demo.signup_carl ∅;
                 mkExchange "/profile" Demo.env2 (Demo.rename "Anna")
                            (session signed_up);
                 mkExchange "/logout" Demo.env2 Demo.get (session signed_up)]
                Demo.env2 (Demo.login_ann "pw1") ∅ [])
      as (_ & u & Hu & Hid & Hlogin & Hs); [compute_done..|].
    exists u. repeat split; try assumption.
    fold signed_up later in Hu.
    assert (Forall (λ v, User.id v = 1 → User.name v = "Anna") (users later)) as Hn
      by compute_done.
    rewrite Forall_forall in Hn. apply (Hn u Hu). by injection Hid.
  - apply (Hout Demo.env2 (Demo.login_ann "pw2") Demo.anonymous Demo.ann);
      [exact demo_store_ok|compute_done..].
Defined.

(** C8 at a password with surrounding whitespace.  [/profile] hashes the
    stripped field, whatever the hash function; [login], which does not
    strip, then refuses the password as it was submitted and accepts the
    stripped one. *)
Theorem profile_trims_password :
  (∀ W : Werkzeug,
     users (db (profile (W := W) Demo.env2 (Demo.change_password " pw9 ")
                        (Demo.as_user Demo.ann)).2)
     = [User.set_password (generate_password_hash "s2" "pw9") Demo.ann;
        Demo.bob; Demo.root])
  ∧ (let later :=
       db (profile (W := toy) Demo.env2 (Demo.change_password " pw9 ")
                   (Demo.as_user Demo.ann)).2 in
     login (W := toy) Demo.env2 (Demo.login_ann " pw9 ") (mkState later ∅ [])
     = (redirect "/login",
        flash "Invalid email or password." "error" (mkState later ∅ []))
     ∧ (login (W := toy) Demo.env2 (Demo.login_ann "pw9") (mkState later ∅ [])).1
       = redirect "/dashboard").
Proof. repeat split. Qed.

(** * Further properties of the handlers *)

(** ** What a request does to the store *)

(** Split a view along its tests. *)
Ltac view_cases :=
  repeat first
    [ progress cbn [fst snd db session flashed flash with_db with_session]
    | match goal with
      | |- context [match method ?r with GET => _ | POST => _ end] =>
          destruct (method r) eqn:?
      | |- context [if negb ?b then _ else _] => destruct b eqn:?; cbn [negb]
      | |- context [if ?b || ?c then _ else _] => destruct (b || c) eqn:?
      | |- context [if bool_decide ?P then _ else _] => destruct (bool_decide P) eqn:?
      | |- context [if contains ?k ?s then _ else _] => destruct (contains k s) eqn:?
      | |- context [if check_password_hash ?h ?p then _ else _] =>
          destruct (check_password_hash h p) eqn:?
      | |- context [match first ?l with Some _ => _ | None => _ end] =>
          destruct (first l) eqn:?
      | |- context [match query_get ?k ?l with Some _ => _ | None => _ end] =>
          destruct (query_get k l) eqn:?
      | |- context [match add_user ?a ?b ?c ?e ?f with Some _ => _ | None => _ end] =>
          destruct (add_user a b c e f) as [[? ?]|] eqn:?
      | |- context [match ?s !! "user_id" with _ => _ end] =>
          destruct (s !! "user_id") as [[?|?]|] eqn:?
      end ].

Section Effect.

Context {W : Werkzeug}.

Lemma signup_effect env req st : effect "/signup" req st (db (signup env req st).2).
Proof.
  unfold signup. view_cases; try apply effect_none.
  match goal with H : _ || _ = false |- _ =>
    apply orb_false_iff in H as [[Ee _]%orb_false_iff Er] end.
  apply negb_false_iff, truthy_true in Ee.
  apply negb_false_iff, bool_decide_eq_true in Er.
  match goal with H : first _ = None |- _ =>
    apply first_filter_by_email_None in H; rename H into Hout end.
  match goal with H : add_user _ _ _ _ _ = Some _ |- _ =>
    rewrite (add_user_Some _ _ _ _ _ Hout) in H; injection H as <- <- end.
  by apply effect_signup.
Qed.

Lemma profile_effect env req st : effect "/profile" req st (db (profile env req st).2).
Proof.
  unfold profile, login_required, profile_body.
  view_cases; try apply effect_none.
  all: match goal with H : query_get _ _ = Some _ |- _ =>
    apply query_get_elem in H as [Hu [= ->]] end.
  all: eapply effect_profile; eauto using profile_user_identity.
Qed.

Lemma book_trip_effect env req st :
  effect "/book-trip" req st (db (book_trip env req st).2).
Proof.
  unfold book_trip, require_role, book_trip_body.
  view_cases; try apply effect_none.
  match goal with H : bool_decide _ = false |- _ =>
    apply bool_decide_eq_false in H; apply dec_stable in H; rename H into Hr end.
  match goal with H : _ || _ = false |- _ =>
    apply orb_false_iff in H as [[Et Eo]%orb_false_iff Ed] end.
  apply negb_false_iff, truthy_true in Et, Eo, Ed.
  by eapply effect_book.
Qed.

(** Whatever the request: the store afterwards is one of the four. *)
Lemma dispatch_request_effect path env req st :
  effect path req st (db (dispatch_request path env req st).2).
Proof.
  unfold dispatch_request, url_map, match_rule.
  repeat (case_decide; [case_bool_decide; [|apply effect_none]|]);
    [..|apply effect_none]; subst path.
  - unfold home. view_cases; apply effect_none.
  - apply signup_effect.
  - unfold login. view_cases; apply effect_none.
  - unfold logout. view_cases. apply effect_none.
  - unfold dashboard, login_required. cbv zeta. view_cases; apply effect_none.
  - apply book_trip_effect.
  - unfold view_bookings, require_role. view_cases; apply effect_none.
  - unfold send_alert, login_required. view_cases; apply effect_none.
  - apply profile_effect.
  - unfold reports, require_role. view_cases; apply effect_none.
  - unfold manage_users, require_role. view_cases; apply effect_none.
  - unfold trips_overview, require_role. view_cases; apply effect_none.
Qed.

End Effect.

Lemma effect_bookings path req st d :
  effect path req st d →
  bookings d = bookings (db st)
  ∨ ∃ b uid,
      bookings d = (bookings (db st) ++ [b])%list
      ∧ users d = users (db st)
      ∧ path = "/book-trip" ∧ method req = POST
      ∧ logged_in uid "passenger" (session st)
      ∧ Booking.id b = next_id (Booking.id <$> bookings (db st))
      ∧ Booking.passenger_id b = uid
      ∧ Booking.status b = Some "Booked".
Proof.
  destruct 1 as [| | |b uid]; simpl; [by left..|]. right.
  exists b, uid. repeat (split; [done|]). done.
Qed.

Lemma effect_bookings_ok path req st d :
  effect path req st d → bookings_ok (db st) → bookings_ok d.
Proof.
  intros He [Hs Hb]. unfold bookings_ok.
  destruct (effect_bookings _ _ _ _ He) as [E|Hadd]; [by rewrite E|].
  destruct Hadd as (b & uid & -> & _ & _ & _ & _ & Hid & _ & Hst). split.
  - rewrite fmap_app. apply StronglySorted_app_2; [|done|repeat constructor].
    intros i j Hi ->%list_elem_of_singleton. rewrite Hid. by apply next_id_above.
  - apply Forall_app. split; [done|]. by repeat constructor.
Qed.

Lemma effect_roles_ok path req st d :
  effect path req st d → db_ok (db st) → roles_ok (db st) → roles_ok d.
Proof.
  unfold roles_ok. intros He (Hs & _) Hr. destruct He; simpl; try done.
  - apply Forall_app. split; [done|]. by apply Forall_singleton.
  - rewrite Forall_forall in *. intros r (r0 & -> & Hr0)%list_elem_of_fmap.
    case_decide; [|by apply Hr].
    match goal with H : identity _ = identity _ |- _ => injection H as _ _ -> end.
    by apply Hr.
Qed.

Section Reachable.

Context {W : Werkzeug}.

Lemma serve_all_bookings_ok d xs : bookings_ok d → bookings_ok (serve_all d xs).
Proof.
  revert d. induction xs as [|x xs IH]; intros d Hok; [done|].
  apply IH. eapply effect_bookings_ok; [apply dispatch_request_effect|done].
Qed.

Lemma serve_all_roles_ok d xs : db_ok d → roles_ok d → roles_ok (serve_all d xs).
Proof.
  revert d. induction xs as [|x xs IH]; intros d Hok Hr; [done|].
  apply IH.
  - by apply (keeps_dispatch_request (x_path x) (x_env x) (x_request x)
                (mkState d (x_cookie x) [])).
  - eapply effect_roles_ok; [apply dispatch_request_effect|done..].
Qed.

Lemma serve_all_bookings_prefix d xs :
  bookings d `prefix_of` bookings (serve_all d xs).
Proof.
  revert d. induction xs as [|x xs IH]; intros d; [done|].
  etrans; [|apply IH]. unfold serve.
  destruct (effect_bookings _ _ _ _
              (dispatch_request_effect (x_path x) (x_env x) (x_request x)
                 (mkState d (x_cookie x) []))) as [E|(b & uid & E & _)];
    rewrite E; [done|by apply prefix_app_r].
Qed.

End Reachable.

(** X1. Only a POST to [/signup], [/profile] or [/book-trip] can change
    the store: every other request, every GET among them, leaves both
    tables as they were. *)
Theorem only_three_routes_write `{W : Werkzeug} path env req st :
  db (dispatch_request path env req st).2 ≠ db st →
  method req = POST ∧ path ∈ ["/signup"; "/profile"; "/book-trip"].
Proof.
  intros Hne.
  destruct (dispatch_request_effect path env req st) as [|u|u u'|b uid];
    [done|split; [done|subst path; compute_done]..].
Qed.

(** X2. No request updates or deletes a booking: through any requests the
    Booking table only grows at its end. *)
Theorem bookings_append_only `{W : Werkzeug} d xs :
  ∃ added, bookings (serve_all d xs) = (bookings d ++ added)%list.
Proof. apply serve_all_bookings_prefix. Qed.

(** X3. A request changes the Booking table only when it is a POST to
    [/book-trip] in a passenger session, and then it appends exactly one
    row, [Booked], with the session's user as passenger; the user table is
    untouched. *)
Theorem booking_needs_passenger_session `{W : Werkzeug} path env req st :
  bookings (db (dispatch_request path env req st).2) ≠ bookings (db st) →
  ∃ b uid,
    path = "/book-trip" ∧ method req = POST
    ∧ logged_in uid "passenger" (session st)
    ∧ bookings (db (dispatch_request path env req st).2)
      = (bookings (db st) ++ [b])%list
    ∧ users (db (dispatch_request path env req st).2) = users (db st)
    ∧ Booking.passenger_id b = uid
    ∧ Booking.status b = Some "Booked".
Proof.
  intros Hne.
  destruct (effect_bookings _ _ _ _ (dispatch_request_effect path env req st))
    as [E|(b & uid & E & Eu & Ep & Em & Hl & _ & Hp & Hs)]; [done|].
  exists b, uid. repeat split; try done; apply Hl.
Qed.

(** X4. Through any requests the Booking table keeps distinct ids and
    every row stays [Booked]: no handler sets another status. *)
Theorem bookings_stay_booked `{W : Werkzeug} d xs :
  bookings_ok d →
  NoDup (Booking.id <$> bookings (serve_all d xs))
  ∧ Forall (λ b, Booking.status b = Some "Booked") (bookings (serve_all d xs)).
Proof.
  intros Hok. destruct (serve_all_bookings_ok d xs Hok) as [Hs Hb].
  split; [|done]. clear Hb. induction Hs as [|i ids Hs IH Hi]; constructor; [|done].
  intros Hin. rewrite Forall_forall in Hi. specialize (Hi i Hin). lia.
Qed.

(** X5. Through any requests the store stays well-formed: no two users
    share an email or an id, and every stored user has one of the three
    roles. *)
Theorem users_stay_distinct `{W : Werkzeug} d xs :
  db_ok d → roles_ok d →
  db_ok (serve_all d xs)
  ∧ NoDup (User.email <$> users (serve_all d xs))
  ∧ NoDup (User.id <$> users (serve_all d xs))
  ∧ roles_ok (serve_all d xs).
Proof.
  intros Hok Hr. destruct (serve_all_keeps d xs Hok) as [Hok' _].
  split; [done|]. split; [apply Hok'|]. split; [|by apply serve_all_roles_ok].
  destruct Hok' as (Hs & _). apply id_lt_fmap in Hs.
  induction Hs as [|i ids Hs IH Hi]; constructor; [|done].
  intros Hin. rewrite Forall_forall in Hi. specialize (Hi i Hin). lia.
Qed.

(** X6. No request deletes a user or moves one: through any requests each
    stored user keeps its place in the table, its id, its email and its
    role. *)
Theorem users_are_never_deleted `{W : Werkzeug} d xs i (u : User.t) :
  db_ok d → users d !! i = Some u →
  ∃ u', users (serve_all d xs) !! i = Some u' ∧ identity u' = identity u.
Proof.
  intros Hok Hi. destruct (serve_all_keeps d xs Hok) as [_ [k Hk]].
  assert ((identity <$> users (serve_all d xs)) !! i = Some (identity u)) as H.
  { rewrite Hk. apply lookup_app_l_Some. by rewrite list_lookup_fmap, Hi. }
  rewrite list_lookup_fmap in H.
  destruct (users (serve_all d xs) !! i) as [u'|]; [|done].
  exists u'. split; [done|]. simpl in H. congruence.
Qed.

Lemma filter_status_all_booked rows :
  Forall (λ b, Booking.status b = Some "Booked") rows →
  filter_by_status "Completed" rows = []
  ∧ filter_status_ne "Completed" rows = rows.
Proof.
  unfold filter_by_status, filter_status_ne.
  induction 1 as [|b rows Hb _ [IH1 IH2]]; [done|]. split.
  - rewrite filter_cons_False by (rewrite Hb; by intros [=]). done.
  - rewrite filter_cons_True by (by rewrite Hb). by rewrite IH2.
Qed.

(** X7. In a store built by requests from one whose bookings are all
    [Booked] (the empty database to begin with), the passenger dashboard
    has an empty history, and its trips are all the bookings of the
    passenger. *)
Theorem history_stays_empty `{W : Werkzeug} d xs env req cookie uid :
  bookings_ok d →
  logged_in uid "passenger" cookie →
  ∃ upcoming,
    dashboard env req (mkState (serve_all d xs) cookie [])
    = (render_template "passenger_dashboard.html"
         [("name", tval_of (Some (default (VStr "User") (cookie !! "name"))));
          ("role", TStr "passenger"); ("active", TStr "dashboard");
          ("trips", TBookings upcoming); ("history", TBookings [])],
       mkState (serve_all d xs) cookie [])
    ∧ upcoming ≡ₚ owned_by uid (bookings (serve_all d xs)).
Proof.
  intros Hok [Hu Hr]. destruct (serve_all_bookings_ok d xs Hok) as [_ Hb].
  unfold dashboard. rewrite (login_required_pass _ _ _ _ (VInt uid)) by done.
  cbv zeta. cbn [session db]. rewrite Hr, Hu.
  rewrite !bool_decide_eq_false_2 by (by intros [=]).
  rewrite filter_by_passenger_owned.
  assert (Forall (λ b, Booking.status b = Some "Booked")
            (owned_by uid (bookings (serve_all d xs)))) as Hown.
  { rewrite Forall_forall in *. intros b Hb'. apply Hb.
    unfold owned_by in Hb'. by apply list_elem_of_filter in Hb' as [_ ?]. }
  destruct (filter_status_all_booked _ Hown) as [-> ->].
  eexists. split; [reflexivity|apply order_by_desc_Permutation].
Qed.

(** ** Guards and sessions *)

(** X8. A view under [login_required]: without a session the request is
    redirected to the login page with a message, whatever the view; with
    one, the request is the view's. *)
Theorem login_required_gate (fn : view) env req st :
  (session st !! "user_id" = None →
     login_required fn env req st
     = (redirect "/login", flash "Please log in first." "error" st))
  ∧ (is_Some (session st !! "user_id") →
     login_required fn env req st = fn env req st).
Proof.
  unfold login_required. split.
  - intros Hn. by rewrite (contains_false _ _ Hn).
  - intros [v Hv]. by rewrite (contains_true _ _ _ Hv).
Qed.

Lemma guarded_without_session `{W : Werkzeug} path env req st :
  session st !! "user_id" = None →
  path ∈ guarded →
  dispatch_request path env req st
  = if bool_decide (method req = GET ∨ path ∈ ["/book-trip"; "/send-alert"; "/profile"])
    then (redirect "/login", flash "Please log in first." "error" st)
    else (abort 405, st).
Proof.
  intros Hn Hp. unfold guarded in Hp. rewrite !elem_of_cons in Hp.
  unfold dispatch_request.
  destruct Hp as [->|[->|[->|[->|[->|[->|[->|[->|[]%elem_of_nil]]]]]]]];
    cbn [url_map match_rule decide]; simpl;
    destruct (method req);
    rewrite ?bool_decide_eq_true_2 by compute_done;
    rewrite ?bool_decide_eq_false_2 by compute_done;
    try done;
    unfold dashboard, book_trip, view_bookings, send_alert, profile, reports,
      manage_users, trips_overview, login_required, require_role;
    by rewrite (contains_false _ _ Hn).
Qed.

(** X9. A browser without a session gets nothing from a guarded rule.  A
    GET, and a POST to a rule that takes POST, are redirected to the login
    page with the message to log in; a POST to a rule that takes GET only
    is a 405.  Neither the store nor the session changes. *)
Theorem anonymous_is_kept_out `{W : Werkzeug} path env req st :
  session st !! "user_id" = None →
  path ∈ guarded →
  dispatch_request path env req st
  = if bool_decide (method req = GET ∨ path ∈ ["/book-trip"; "/send-alert"; "/profile"])
    then (redirect "/login", flash "Please log in first." "error" st)
    else (abort 405, st).
Proof. apply guarded_without_session. Qed.

(** X10. [logout] empties the session whatever it held and leaves the
    store alone.  After it a GET or POST to a guarded rule is answered as
    for a browser that never logged in, by the redirect to the login page
    or, for a POST to a rule that takes GET only, by a 405; and [/] shows
    the landing page. *)
Theorem logout_closes_session `{W : Werkzeug} env req st :
  logout env req st
  = (redirect "/", flash "You have been logged out." "success" (with_session ∅ st))
  ∧ (∀ path env' req',
       path ∈ guarded →
       (dispatch_request path env' req' (logout env req st).2).1
       = if bool_decide (method req' = GET
                         ∨ path ∈ ["/book-trip"; "/send-alert"; "/profile"])
         then redirect "/login" else abort 405)
  ∧ (∀ env' req', (home env' req' (logout env req st).2).1
                  = render_template "index.html" []).
Proof.
  split; [done|]. split.
  - intros path env' req' Hp.
    rewrite (guarded_without_session path env' req' (logout env req st).2);
      [|done|done].
    by case_bool_decide.
  - done.
Qed.

(** X11. A login with an address that no stored user has is refused with
    the message of a wrong password, and leaves the state as it was but
    for that message. *)
Theorem login_unknown_email `{W : Werkzeug} env req st :
  method req = POST →
  (Py.lower (Py.strip (form_get "email" "" req)) ∉ User.email <$> users (db st)) →
  login env req st
  = (redirect "/login", flash "Invalid email or password." "error" st).
Proof. apply login_unknown. Qed.

(** X12. The session that [signup] and [login] open for a user passes
    [login_required] and the [require_role] of that user's role, and is
    turned to the dashboard by the [require_role] of any other role. *)
Theorem opened_session_serves_own_role (u : User.t) s r (fn : view) env req st :
  session st = open_session u s →
  login_required fn env req st = fn env req st
  ∧ require_role (User.role u) fn env req st = fn env req st
  ∧ (r ≠ User.role u →
     require_role r fn env req st
     = (redirect "/dashboard",
        flash "You are not authorized to view that page." "error" st)).
Proof.
  intros Hs. destruct (session_of_open u s) as (Hu & Hr & _). rewrite <-Hs in Hu, Hr.
  split; [by apply (login_required_pass _ _ _ _ (VInt (User.id u)))|].
  split; [by apply (require_role_pass _ _ _ _ _ (User.id u))|].
  intros Hne. unfold require_role. rewrite (contains_true _ _ _ Hu). simpl.
  rewrite bool_decide_eq_true_2; [done|]. rewrite Hr. congruence.
Qed.

(** ** The application as a whole *)

(** Split a request along the URL map; [tac] closes the 405 cases. *)
Ltac route_cases tac :=
  unfold dispatch_request, url_map, match_rule;
  repeat (case_decide; [case_bool_decide; [|tac]|]);
  unfold home, logout, dashboard, book_trip, book_trip_body, view_bookings,
    view_bookings_body, send_alert, profile, profile_body, reports,
    manage_users, manage_users_body, trips_overview, not_found, signup, login,
    login_required, require_role;
  cbv zeta.

Lemma query_get_known (u : User.t) us :
  u ∈ us → query_get (VInt (User.id u)) us ≠ None.
Proof.
  intros Hu. unfold query_get, first. rewrite head_None. intros E.
  assert (u ∈ filter (λ u0, VInt (User.id u0) = VInt (User.id u)) us) as H
    by by apply list_elem_of_filter.
  rewrite E in H. by apply elem_of_nil in H.
Qed.

(** X13. With a session as the application writes it (none, or the id of
    a stored user) no request ends in a server error: the unique index on
    [email] is never hit, and the session's user is always found. *)
Theorem no_server_error `{W : Werkzeug} path env req st :
  session_known (db st) (session st) →
  (dispatch_request path env req st).1 ≠ abort 500.
Proof.
  intros Hk. route_cases ltac:(by cbn). all: view_cases; try done.
  all: first
    [ match goal with
      | H : first _ = None, H' : add_user _ _ _ _ _ = None |- _ =>
          apply first_filter_by_email_None in H;
          rewrite (add_user_Some _ _ _ _ _ H) in H'; discriminate
      | H : contains _ _ = true, H' : _ !! "user_id" = None |- _ =>
          rewrite (contains_false _ _ H') in H; discriminate
      end
    | destruct Hk as [Hk|(u & Hu & Hk)]; [congruence|];
      first
        [ congruence
        | match goal with
          | H : query_get (VInt ?z) _ = None |- _ =>
              assert (z = User.id u) as -> by congruence;
              by apply query_get_known in H
          end ] ].
Qed.

Lemma every_route_takes_get `{W : Werkzeug} loc :
  loc ∈ routes → ∃ methods fn, match_rule loc url_map = Some (methods, fn) ∧ GET ∈ methods.
Proof.
  unfold routes. rewrite !elem_of_cons.
  intros [->|[->|[->|[->|[->|[->|[->|[->|[->|[->|[->|[->|[]%elem_of_nil]]]]]]]]]]]];
    eexists _, _; (split; [reflexivity|compute_done]).
Qed.

(** X14. Every redirect that the application answers with goes to a rule
    of its own URL map, one that takes GET: following it never ends in the
    404 handler or in a 405. *)
Theorem redirects_stay_inside `{W : Werkzeug} path env req st loc :
  (dispatch_request path env req st).1 = redirect loc →
  ∃ methods fn, match_rule loc url_map = Some (methods, fn) ∧ GET ∈ methods.
Proof.
  intros Hr. apply every_route_takes_get. revert Hr.
  route_cases ltac:(by cbn). all: view_cases; try done.
  all: intros [= <-]; compute_done.
Qed.

(** X15. A request that flashes an error has written nothing: the store
    and the session are as before. *)
Theorem error_flash_means_nothing_written `{W : Werkzeug} path env req st message :
  flashed (dispatch_request path env req st).2
  = (flashed st ++ [(message, "error")])%list →
  db (dispatch_request path env req st).2 = db st
  ∧ session (dispatch_request path env req st).2 = session st.
Proof.
  route_cases ltac:(by cbn). all: view_cases; try done.
  all: intros Hf; apply app_inv_head in Hf; discriminate.
Qed.

(** ** The admin views *)

Lemma role_counts us :
  (length (filter_by_role "passenger" us) + length (filter_by_role "driver" us)
   + length (filter_by_role "admin" us) ≤ length us)%nat
  ∧ (Forall (λ u, User.role u ∈ ["passenger"; "driver"; "admin"]) us →
     (length (filter_by_role "passenger" us) + length (filter_by_role "driver" us)
      + length (filter_by_role "admin" us) = length us)%nat).
Proof.
  unfold filter_by_role. induction us as [|u us [IH1 IH2]]; [done|].
  rewrite !filter_cons. split.
  - repeat case_decide; simpl; try lia; congruence.
  - intros [Hu Hus]%Forall_cons. specialize (IH2 Hus).
    rewrite !elem_of_cons in Hu.
    destruct Hu as [E|[E|[E|[]%elem_of_nil]]]; rewrite E;
      repeat case_decide; simpl; try lia; congruence.
Qed.

(** X17. The dashboard of an admin session shows the number of rows of
    the User table, the number of those with role [passenger], the number
    of those with role [driver] and the number of rows of the Booking
    table, and changes nothing.  The passengers and drivers are never
    more than the users, and with every role one of the three, the users
    are the passengers, the drivers and the admins. *)
Theorem admin_dashboard_counts env req st uid :
  logged_in uid "admin" (session st) →
  let count role :=
    Z.of_nat (length (filter (λ u, User.role u = role) (users (db st)))) in
  dashboard env req st
  = (render_template "admin_dashboard.html"
       [("name", tval_of (Some (default (VStr "User") (session st !! "name"))));
        ("role", TStr "admin"); ("active", TStr "dashboard");
        ("total_users", TInt (Z.of_nat (length (users (db st)))));
        ("total_passengers", TInt (count "passenger"));
        ("total_drivers", TInt (count "driver"));
        ("total_bookings", TInt (Z.of_nat (length (bookings (db st)))))], st)
  ∧ (count "passenger" + count "driver" ≤ Z.of_nat (length (users (db st))))%Z
  ∧ (roles_ok (db st) →
     Z.of_nat (length (users (db st)))
     = (count "passenger" + count "driver" + count "admin")%Z).
Proof.
  intros [Hu Hr] count. unfold dashboard.
  rewrite (login_required_pass _ _ _ _ _ Hu). cbv zeta.
  rewrite Hr. rewrite bool_decide_eq_true_2 by done.
  split; [reflexivity|].
  destruct (role_counts (users (db st))) as [Hle Heq].
  unfold filter_by_role in Hle, Heq. unfold count.
  split; [lia|]. intros Hok. specialize (Heq Hok). lia.
Qed.

(** X18. [/trips-overview] in an admin session lists every booking of
    every passenger, newest first by [created_at], and changes nothing. *)
Theorem trips_overview_all env req st uid :
  logged_in uid "admin" (session st) →
  ∃ shown,
    trips_overview env req st
    = (render_template "admin_dashboard.html"
         [("active", TStr "trips_overview"); ("name", tval_of (session st !! "name"));
          ("role", TStr "admin"); ("bookings", TBookings shown)], st)
    ∧ shown ≡ₚ bookings (db st)
    ∧ newest_first shown.
Proof.
  intros Hl. unfold trips_overview. rewrite (require_role_pass _ _ _ _ _ _ Hl).
  eexists. split; [reflexivity|].
  split; [apply order_by_desc_Permutation|apply order_by_desc_sorted].
Qed.

(** ** Booking, then viewing *)

Lemma owned_by_app uid l1 l2 :
  owned_by uid (l1 ++ l2) = (owned_by uid l1 ++ owned_by uid l2)%list.
Proof. apply filter_app. Qed.

(** X19. After a passenger has booked a trip, [/view-bookings] in the
    same session shows the bookings it showed before and the new one; the
    bookings of every other passenger are as before. *)
Theorem book_then_view env req env' req' st uid :
  method req = POST →
  logged_in uid "passenger" (session st) →
  Py.strip (form_get "trip_date" "" req) ≠ "" →
  Py.strip (form_get "origin" "" req) ≠ "" →
  Py.strip (form_get "destination" "" req) ≠ "" →
  ∃ b shown,
    bookings (db (book_trip env req st).2) = (bookings (db st) ++ [b])%list
    ∧ view_bookings env' req' (book_trip env req st).2
      = (render_template "view_bookings.html"
           [("bookings", TBookings shown); ("active", TStr "view_bookings")],
         (book_trip env req st).2)
    ∧ b ∈ shown
    ∧ shown ≡ₚ (owned_by uid (bookings (db st)) ++ [b])%list
    ∧ (∀ other, other ≠ uid →
         owned_by other (bookings (db (book_trip env req st).2))
         = owned_by other (bookings (db st))).
Proof.
  intros Hm Hl Ht%truthy_true Ho%truthy_true Hd%truthy_true.
  pose proof Hl as [Hu Hr].
  unfold book_trip at 1 2 3 4. rewrite (require_role_pass _ _ _ _ _ _ Hl).
  unfold book_trip_body. rewrite Hm, Ht, Ho, Hd, Hu. cbn [negb orb add_booking].
  set (b := Booking.mk _ _ _ _ _ _ _).
  exists b. eexists. view_simpl. split; [reflexivity|].
  unfold view_bookings. rewrite (require_role_pass _ _ _ _ _ uid) by done.
  unfold view_bookings_body. view_simpl. rewrite Hu, filter_by_passenger_owned.
  split; [reflexivity|]. cbn [bookings].
  assert (owned_by uid (bookings (db st) ++ [b])
          = (owned_by uid (bookings (db st)) ++ [b])%list) as E.
  { rewrite owned_by_app. f_equal. unfold owned_by.
    by rewrite filter_cons_True. }
  split; [|split].
  - apply order_by_desc_elem. rewrite E. apply elem_of_app. right. by left.
  - by rewrite order_by_desc_Permutation, E.
  - intros other Hne. rewrite owned_by_app. unfold owned_by at 2.
    rewrite filter_cons_False by (simpl; congruence).
    by rewrite filter_nil, app_nil_r.
Qed.

(** ** The profile form *)

(** X20. What a POST to [/profile] writes, for the stored user of the
    session: the stripped [name] field, when it is not empty, as name of
    the row and in the session; the hash of the stripped [password] field,
    when it is not empty, as password; nothing else of the row, no other
    row, no booking. *)
Theorem profile_post_frame `{W : Werkzeug} env req st (u : User.t) :
  db_ok (db st) → u ∈ users (db st) →
  session st !! "user_id" = Some (VInt (User.id u)) →
  method req = POST →
  let name := Py.strip (form_get "name" "" req) in
  let pwd := Py.strip (form_get "password" "" req) in
  ∃ u' session',
    profile env req st
    = (redirect "/profile",
       flash "Profile updated!" "success"
         (mkState (mkDB ((λ r, if decide (r = u) then u' else r) <$> users (db st))
                        (bookings (db st)))
                  session' (flashed st)))
    ∧ identity u' = identity u
    ∧ (name ≠ "" →
       User.name u' = name ∧ session' = <["name" := VStr name]> (session st))
    ∧ (name = "" → User.name u' = User.name u ∧ session' = session st)
    ∧ (pwd ≠ "" → User.password u' = generate_password_hash (gen_salt env) pwd)
    ∧ (pwd = "" → User.password u' = User.password u).
Proof. apply profile_frame. Qed.

(** X21. After a POST to [/profile] with a password field that is not
    blank, a login with the address of that user and the stripped
    password is accepted, and the session it opens is that user's. *)
Theorem profile_then_login `{W : Werkzeug} env req st (u : User.t)
    env' req' cookie log :
  hash_verifies W →
  db_ok (db st) → u ∈ users (db st) →
  session st !! "user_id" = Some (VInt (User.id u)) →
  method req = POST →
  Py.strip (form_get "password" "" req) ≠ "" →
  method req' = POST →
  same_address (form_get "email" "" req') (User.email u) →
  form_get "password" "" req' = Py.strip (form_get "password" "" req) →
  ∃ u',
    u' ∈ users (db (profile env req st).2)
    ∧ identity u' = identity u
    ∧ login env' req' (mkState (db (profile env req st).2) cookie log)
      = (redirect "/dashboard",
         flash "Login successful!" "success"
           (mkState (db (profile env req st).2) (open_session u' cookie) log)).
Proof.
  intros Hv Hok Hu Hs Hm Hp Hm' Hsame Hpw.
  destruct (keeps_profile env req st Hok) as [Hok' _].
  destruct profile_frame as [Hframe _].
  destruct (Hframe env req st u Hok Hu Hs Hm)
    as (u' & s' & E & Hid & _ & _ & Hpwd & _).
  specialize (Hpwd Hp).
  assert (u' ∈ users (db (profile env req st).2)) as Hu'.
  { rewrite E. view_simpl. apply list_elem_of_fmap. exists u. by rewrite decide_True. }
  exists u'. split; [exact Hu'|]. split; [exact Hid|].
  injection Hid as _ Eem _.
  rewrite (login_found env' req' (mkState (db (profile env req st).2) cookie log)
             u' Hok' Hu' Hm'); [|by rewrite Eem].
  by rewrite Hpwd, Hpw, Hv.
Qed.

(** X22. [/profile] for a session whose user has no row: a POST with a
    name or a password that is not blank ends in a server error, a POST
    with both blank reports success, a GET shows no user; the state is
    untouched in the three cases, but for the success message. *)
Theorem profile_missing_user `{W : Werkzeug} env req st k :
  session st !! "user_id" = Some k →
  query_get k (users (db st)) = None →
  let name := Py.strip (form_get "name" "" req) in
  let pwd := Py.strip (form_get "password" "" req) in
  (method req = POST → name ≠ "" ∨ pwd ≠ "" → profile env req st = (abort 500, st))
  ∧ (method req = POST → name = "" → pwd = "" →
     profile env req st
     = (redirect "/profile", flash "Profile updated!" "success" st))
  ∧ (method req = GET →
     profile env req st
     = (render_template "profile.html"
          [("user", TUser None); ("active", TStr "profile")], st)).
Proof.
  intros Hs Hq name pwd. unfold profile.
  rewrite (login_required_pass _ _ _ _ _ Hs). unfold profile_body.
  rewrite Hs, Hq. fold name pwd. repeat split.
  - intros -> [Hn%truthy_true|Hp%truthy_true].
    + by rewrite Hn.
    + rewrite Hp. by rewrite orb_true_r.
  - by intros -> -> ->.
  - by intros ->.
Qed.

(** X23. A POST to [/profile] with both fields blank reports success and
    changes neither the store nor the session. *)
Theorem profile_blank_changes_nothing `{W : Werkzeug} env req st (u : User.t) :
  db_ok (db st) → u ∈ users (db st) →
  session st !! "user_id" = Some (VInt (User.id u)) →
  method req = POST →
  Py.strip (form_get "name" "" req) = "" →
  Py.strip (form_get "password" "" req) = "" →
  profile env req st
  = (redirect "/profile", flash "Profile updated!" "success" st).
Proof.
  intros Hok Hu Hs Hm Hn Hp.
  destruct profile_frame as [Hframe _].
  destruct (Hframe env req st u Hok Hu Hs Hm)
    as (u' & s' & E & Hid & _ & Hname & _ & Hpwd).
  destruct (Hname Hn) as [En ->]. specialize (Hpwd Hp).
  assert (u' = u) as ->.
  { destruct u, u'. injection Hid as -> -> ->. simpl in *. congruence. }
  rewrite E. f_equal. unfold flash. simpl. f_equal.
  destruct st as [[us bs] s fl]. simpl. f_equal. f_equal.
  rewrite <-(list_fmap_id us) at 2. apply list_fmap_ext.
  intros i r _. by case_decide.
Qed.

(** X24. A GET of [/profile] shows the row of the session's user, the one
    row with that id, and changes nothing. *)
Theorem profile_shows_own_row `{W : Werkzeug} env req st (u : User.t) :
  db_ok (db st) → u ∈ users (db st) →
  session st !! "user_id" = Some (VInt (User.id u)) →
  method req = GET →
  profile env req st
  = (render_template "profile.html"
       [("user", TUser (Some u)); ("active", TStr "profile")], st).
Proof.
  intros (Hs & _) Hu Hsess Hm. unfold profile.
  rewrite (login_required_pass _ _ _ _ _ Hsess). unfold profile_body.
  by rewrite Hsess, Hm, (query_get_Some _ _ Hs Hu).
Qed.

(** ** Signing up twice *)

(** X25. A signup that succeeded cannot be repeated: the same form, sent
    again by any browser, is refused as already registered, and nothing
    is written. *)
Theorem signup_twice `{W : Werkzeug} env req st env' cookie log :
  (signup env req st).1 = redirect "/dashboard" →
  signup env' req (mkState (db (signup env req st).2) cookie log)
  = (redirect "/login",
     flash "Email already registered. Please log in." "error"
       (mkState (db (signup env req st).2) cookie log)).
Proof.
  intros Hok.
  destruct (signup_dashboard_inv _ _ _ Hok) as (Hm & He & Hp & Hr & Hout).
  apply signup_conflict; try done.
  rewrite (signup_created env req st Hm He Hp Hr Hout). view_simpl. simpl.
  rewrite fmap_app. apply elem_of_app. right. by left.
Qed.

(** X26. What [signup] fills in: a name that is missing or blank is
    stored as [User], a missing role as [passenger], and the name is
    stored stripped. *)
Theorem signup_defaults `{W : Werkzeug} env req st :
  (signup env req st).1 = redirect "/dashboard" →
  ∃ u,
    users (db (signup env req st).2) = (users (db st) ++ [u])%list
    ∧ session (signup env req st).2 !! "name" = Some (VStr (User.name u))
    ∧ (Py.strip (form_get "name" "" req) = "" → User.name u = "User")
    ∧ (Py.strip (form_get "name" "" req) ≠ "" →
       User.name u = Py.strip (form_get "name" "" req))
    ∧ (form req !! "name" = None → User.name u = "User")
    ∧ (form req !! "role" = None → User.role u = "passenger").
Proof.
  intros Hok.
  destruct (signup_dashboard_inv _ _ _ Hok) as (Hm & He & Hp & Hr & Hout).
  rewrite (signup_created env req st Hm He Hp Hr Hout).
  exists (new_user env req (db st)). view_simpl.
  split; [done|]. split; [apply session_of_open|].
  unfold new_user, form_get. simpl. repeat split.
  - by intros ->.
  - intros Hn%truthy_true. unfold Py.or_else. by rewrite Hn.
  - by intros ->.
  - by intros ->.
Qed.

(** * The further properties at work *)

Lemma signup_defaults_witness :
  ∃ u,
    users (db (signup (W := toy) Demo.env2 Demo.signup_bare Demo.anonymous).2)
    = (users Demo.store ++ [u])%list
    ∧ User.name u = "User"
    ∧ User.role u = "passenger".
Proof.
  destruct (signup_defaults (W := toy) Demo.env2 Demo.signup_bare Demo.anonymous)
    as (u & Hu & _ & _ & _ & Hn & Hr); [reflexivity|].
  exists u. split; [exact Hu|]. split; [by apply Hn|by apply Hr].
Defined.


Lemma only_three_routes_write_witness :
  method (Demo.book "2024-03-03") = POST
  ∧ "/book-trip" ∈ ["/signup"; "/profile"; "/book-trip"].
Proof.
  apply (only_three_routes_write (W := toy) "/book-trip" Demo.env1
           (Demo.book "2024-03-03") (Demo.as_user Demo.ann)).
  compute_done.
Defined.

Lemma booking_needs_passenger_session_witness :
  ∃ b uid,
    logged_in uid "passenger" (session (Demo.as_user Demo.bob))
    ∧ bookings (db (dispatch_request (W := toy) "/book-trip" Demo.env2
                      (Demo.book "2024-03-03") (Demo.as_user Demo.bob)).2)
      = (bookings Demo.store ++ [b])%list
    ∧ Booking.passenger_id b = uid
    ∧ Booking.status b = Some "Booked".
Proof.
  destruct (booking_needs_passenger_session (W := toy) "/book-trip" Demo.env2
              (Demo.book "2024-03-03") (Demo.as_user Demo.bob))
    as (b & uid & _ & _ & Hl & Hb & _ & Hp & Hs); [compute_done|].
  exists b, uid. repeat split; try assumption; apply Hl.
Defined.

Lemma bookings_stay_booked_witness :
  NoDup (Booking.id <$> bookings (serve_all (W := toy) (mkDB [] []) Demo.run))
  ∧ Forall (λ b, Booking.status b = Some "Booked")
      (bookings (serve_all (W := toy) (mkDB [] []) Demo.run))
  ∧ length (bookings (serve_all (W := toy) (mkDB [] []) Demo.run)) = 2%nat.
Proof.
  destruct (bookings_stay_booked (W := toy) (mkDB [] []) Demo.run) as [Hn Hb];
    [compute_done|].
  repeat split; try assumption.
Defined.

Lemma users_stay_distinct_witness :
  db_ok (serve_all (W := toy) Demo.store Demo.run)
  ∧ NoDup (User.email <$> users (serve_all (W := toy) Demo.store Demo.run))
  ∧ NoDup (User.id <$> users (serve_all (W := toy) Demo.store Demo.run))
  ∧ roles_ok (serve_all (W := toy) Demo.store Demo.run).
Proof.
  apply (users_stay_distinct (W := toy) Demo.store Demo.run);
    [exact demo_store_ok|compute_done].
Defined.

Lemma users_are_never_deleted_witness :
  ∃ u',
    users (serve_all (W := toy) Demo.store Demo.run) !! 0%nat = Some u'
    ∧ identity u' = (1, "ann@x.com", "passenger").
Proof.
  apply (users_are_never_deleted (W := toy) Demo.store Demo.run 0 Demo.ann);
    [exact demo_store_ok|reflexivity].
Defined.

Lemma history_stays_empty_witness :
  ∃ upcoming,
    (dashboard Demo.env2 Demo.get
       (mkState (serve_all (W := toy) (mkDB [] []) Demo.run)
                (open_session Demo.ann ∅) [])).1
    = render_template "passenger_dashboard.html"
        [("name", TStr "Ann"); ("role", TStr "passenger");
         ("active", TStr "dashboard");
         ("trips", TBookings upcoming); ("history", TBookings [])]
    ∧ length upcoming = 2%nat.
Proof.
  destruct (history_stays_empty (W := toy) (mkDB [] []) Demo.run Demo.env2 Demo.get
              (open_session Demo.ann ∅) 1)
    as (upcoming & E & Hp); [compute_done..|].
  exists upcoming. rewrite E. split; [reflexivity|]. by rewrite Hp.
Defined.

Lemma login_required_gate_witness :
  dashboard Demo.env1 Demo.get Demo.anonymous
  = (redirect "/login", flash "Please log in first." "error" Demo.anonymous)
  ∧ profile (W := toy) Demo.env1 Demo.get (Demo.as_user Demo.bob)
    = profile_body (W := toy) Demo.env1 Demo.get (Demo.as_user Demo.bob).
Proof.
  split.
  - unfold dashboard. apply login_required_gate. reflexivity.
  - apply (login_required_gate profile_body). compute_done.
Defined.

Lemma anonymous_is_kept_out_witness :
  dispatch_request (W := toy) "/book-trip" Demo.env1 (Demo.book "2024-03-03")
    Demo.anonymous
  = (redirect "/login", flash "Please log in first." "error" Demo.anonymous)
  ∧ dispatch_request (W := toy) "/reports" Demo.env1 (Demo.book "2024-03-03")
      Demo.anonymous
    = (abort 405, Demo.anonymous).
Proof.
  split.
  - apply (anonymous_is_kept_out (W := toy) "/book-trip" Demo.env1
             (Demo.book "2024-03-03") Demo.anonymous); [reflexivity|compute_done].
  - apply (anonymous_is_kept_out (W := toy) "/reports" Demo.env1
             (Demo.book "2024-03-03") Demo.anonymous); [reflexivity|compute_done].
Defined.

Lemma login_unknown_email_witness :
  login (W := toy) Demo.env1 (Demo.login_ann "pw1") Demo.empty
  = (redirect "/login", flash "Invalid email or password." "error" Demo.empty).
Proof.
  apply (login_unknown_email (W := toy) Demo.env1 (Demo.login_ann "pw1") Demo.empty);
    [reflexivity|compute_done].
Defined.

Lemma opened_session_serves_own_role_witness :
  login_required view_bookings_body Demo.env1 Demo.get (Demo.as_user Demo.ann)
  = view_bookings_body Demo.env1 Demo.get (Demo.as_user Demo.ann)
  ∧ require_role "passenger" view_bookings_body Demo.env1 Demo.get
      (Demo.as_user Demo.ann)
    = view_bookings_body Demo.env1 Demo.get (Demo.as_user Demo.ann)
  ∧ ("admin" ≠ "passenger" →
     require_role "admin" view_bookings_body Demo.env1 Demo.get
       (Demo.as_user Demo.ann)
     = (redirect "/dashboard",
        flash "You are not authorized to view that page." "error"
          (Demo.as_user Demo.ann))).
Proof.
  apply (opened_session_serves_own_role Demo.ann ∅ "admin" view_bookings_body
           Demo.env1 Demo.get (Demo.as_user Demo.ann)).
  reflexivity.
Defined.

Lemma no_server_error_witness :
  (dispatch_request (W := toy) "/profile" Demo.env2 (Demo.rename "Anna")
     (Demo.as_user Demo.ann)).1 ≠ abort 500
  ∧ (dispatch_request (W := toy) "/signup" Demo.env2 Demo.signup_ann
       Demo.anonymous).1 ≠ abort 500.
Proof.
  split.
  - apply (no_server_error (W := toy)). right. exists Demo.ann.
    split; [compute_done|reflexivity].
  - apply (no_server_error (W := toy)). left. reflexivity.
Defined.

Lemma redirects_stay_inside_witness :
  ∃ methods fn,
    match_rule "/view-bookings" (url_map (W := toy)) = Some (methods, fn)
    ∧ GET ∈ methods.
Proof.
  apply (redirects_stay_inside (W := toy) "/book-trip" Demo.env1
           (Demo.book "2024-03-03") (Demo.as_user Demo.ann) "/view-bookings").
  reflexivity.
Defined.

Lemma error_flash_means_nothing_written_witness :
  db (dispatch_request (W := toy) "/signup" Demo.env1 Demo.signup_ann
        Demo.anonymous).2 = Demo.store
  ∧ session (dispatch_request (W := toy) "/signup" Demo.env1 Demo.signup_ann
               Demo.anonymous).2 = ∅.
Proof.
  apply (error_flash_means_nothing_written (W := toy) "/signup" Demo.env1
           Demo.signup_ann Demo.anonymous "Email already registered. Please log in.").
  reflexivity.
Defined.

Lemma admin_dashboard_counts_witness :
  dashboard Demo.env1 Demo.get (Demo.as_user Demo.root)
  = (render_template "admin_dashboard.html"
       [("name", TStr "Root"); ("role", TStr "admin"); ("active", TStr "dashboard");
        ("total_users", TInt 3); ("total_passengers", TInt 2);
        ("total_drivers", TInt 0); ("total_bookings", TInt 4)],
     Demo.as_user Demo.root)
  ∧ (2 + 0 ≤ 3)%Z
  ∧ 3%Z = (2 + 0 + 1)%Z.
Proof.
  destruct (admin_dashboard_counts Demo.env1 Demo.get (Demo.as_user Demo.root) 3)
    as (E & Hle & Heq); [compute_done|].
  split; [exact E|]. split; [exact Hle|]. apply Heq. compute_done.
Defined.

Lemma trips_overview_all_witness :
  ∃ shown,
    (trips_overview Demo.env1 Demo.get (Demo.as_user Demo.root)).1
    = render_template "admin_dashboard.html"
        [("active", TStr "trips_overview"); ("name", TStr "Root");
         ("role", TStr "admin"); ("bookings", TBookings shown)]
    ∧ shown ≡ₚ bookings Demo.store
    ∧ newest_first shown.
Proof.
  destruct (trips_overview_all Demo.env1 Demo.get (Demo.as_user Demo.root) 3)
    as (shown & E & Hp & Hn); [compute_done|].
  exists shown. rewrite E. repeat split; assumption.
Defined.

Lemma book_then_view_witness :
  ∃ b shown,
    bookings (db (book_trip Demo.env2 (Demo.book "2024-03-03")
                    (Demo.as_user Demo.bob)).2)
    = (bookings Demo.store ++ [b])%list
    ∧ b ∈ shown
    ∧ shown ≡ₚ [Demo.trip 2 2 "Booked" 20; b]
    ∧ owned_by 1 (bookings (db (book_trip Demo.env2 (Demo.book "2024-03-03")
                                  (Demo.as_user Demo.bob)).2))
      = owned_by 1 (bookings Demo.store).
Proof.
  destruct (book_then_view Demo.env2 (Demo.book "2024-03-03") Demo.env2 Demo.get
              (Demo.as_user Demo.bob) 2)
    as (b & shown & Hb & _ & Hin & Hp & Hother); [compute_done..|].
  exists b, shown. split; [exact Hb|]. split; [exact Hin|]. split; [exact Hp|].
  apply Hother. lia.
Defined.

Lemma profile_post_frame_witness :
  ∃ u' session',
    profile (W := toy) Demo.env2 (Demo.rename " Anna ") (Demo.as_user Demo.ann)
    = (redirect "/profile",
       flash "Profile updated!" "success"
         (mkState (mkDB [u'; Demo.bob; Demo.root] (bookings Demo.store))
                  session' []))
    ∧ identity u' = identity Demo.ann
    ∧ User.name u' = "Anna"
    ∧ session' !! "name" = Some (VStr "Anna")
    ∧ User.password u' = User.password Demo.ann.
Proof.
  destruct (profile_post_frame (W := toy) Demo.env2 (Demo.rename " Anna ")
              (Demo.as_user Demo.ann) Demo.ann)
    as (u' & s' & E & Hid & Hname & _ & _ & Hpwd);
    [exact demo_store_ok|compute_done..|].
  exists u', s'. split; [exact E|]. split; [exact Hid|].
  destruct Hname as [Hn ->]; [compute_done|].
  split; [exact Hn|]. split; [reflexivity|]. apply Hpwd. reflexivity.
Defined.

Lemma profile_then_login_witness :
  ∃ u',
    identity u' = identity Demo.ann
    ∧ (login (W := toy) Demo.env1 (Demo.login_ann "pw9")
         (mkState (db (profile (W := toy) Demo.env2 (Demo.change_password " pw9 ")
                         (Demo.as_user Demo.ann)).2) ∅ [])).1
      = redirect "/dashboard".
Proof.
  destruct (profile_then_login (W := toy) Demo.env2 (Demo.change_password " pw9 ")
              (Demo.as_user Demo.ann) Demo.ann Demo.env1 (Demo.login_ann "pw9") ∅ [])
    as (u' & _ & Hid & E);
    [exact toy_verifies|exact demo_store_ok|compute_done..|].
  exists u'. split; [exact Hid|]. by rewrite E.
Defined.

Lemma profile_missing_user_witness :
  profile (W := toy) Demo.env2 (Demo.rename "Nobody") (Demo.as_user Demo.ghost)
  = (abort 500, Demo.as_user Demo.ghost)
  ∧ profile (W := toy) Demo.env2 (Demo.rename "  ") (Demo.as_user Demo.ghost)
    = (redirect "/profile",
       flash "Profile updated!" "success" (Demo.as_user Demo.ghost))
  ∧ profile (W := toy) Demo.env2 Demo.get (Demo.as_user Demo.ghost)
    = (render_template "profile.html"
         [("user", TUser None); ("active", TStr "profile")],
       Demo.as_user Demo.ghost).
Proof.
  split; [|split].
  - apply (profile_missing_user (W := toy) Demo.env2 (Demo.rename "Nobody")
             (Demo.as_user Demo.ghost) (VInt 9)); [reflexivity..|].
    left. compute_done.
  - apply (profile_missing_user (W := toy) Demo.env2 (Demo.rename "  ")
             (Demo.as_user Demo.ghost) (VInt 9)); reflexivity.
  - apply (profile_missing_user (W := toy) Demo.env2 Demo.get
             (Demo.as_user Demo.ghost) (VInt 9)); reflexivity.
Defined.

Lemma profile_blank_changes_nothing_witness :
  profile (W := toy) Demo.env2 (Demo.rename "  ") (Demo.as_user Demo.ann)
  = (redirect "/profile", flash "Profile updated!" "success" (Demo.as_user Demo.ann)).
Proof.
  apply (profile_blank_changes_nothing (W := toy) Demo.env2 (Demo.rename "  ")
           (Demo.as_user Demo.ann) Demo.ann);
    [exact demo_store_ok|compute_done..].
Defined.

Lemma profile_shows_own_row_witness :
  profile (W := toy) Demo.env2 Demo.get (Demo.as_user Demo.bob)
  = (render_template "profile.html"
       [("user", TUser (Some Demo.bob)); ("active", TStr "profile")],
     Demo.as_user Demo.bob).
Proof.
  apply (profile_shows_own_row (W := toy) Demo.env2 Demo.get
           (Demo.as_user Demo.bob) Demo.bob);
    [exact demo_store_ok|compute_done..].
Defined.

Lemma signup_twice_witness :
  signup (W := toy) Demo.env2 Demo.signup_carl
    (mkState (db (signup (W := toy) Demo.env1 Demo.signup_carl Demo.anonymous).2)
             (open_session Demo.ann ∅) [])
  = (redirect "/login",
     flash "Email already registered. Please log in." "error"
       (mkState (db (signup (W := toy) Demo.env1 Demo.signup_carl Demo.anonymous).2)
                (open_session Demo.ann ∅) [])).
Proof.
  apply (signup_twice (W := toy) Demo.env1 Demo.signup_carl Demo.anonymous).
  reflexivity.
Defined.
